(** * Ethereum block summary API: a shallow embedding of [app.py]

    The program is a small FastAPI service: [get_block] turns an optional
    block number into a JSON-RPC block identifier ([hex_block_number]),
    posts one [eth_getBlockByNumber] request ([call_rpc], [fetch_block]) and
    reduces the decoded block to a summary ([process_block]).

    Conventions of the embedding.
    - Python objects decoded from JSON are values of [json].  JSON numbers
      are the integers ([JInt]); non-integer numbers are outside the model.
    - A Python [str] is a [string]; each character stands for the code point
      with the same number (0..255).  Code points above 255 are outside the
      model.
    - A Python [dict] is an association list in insertion order; the first
      binding of a key is the one the dict holds.
    - A raised exception is the [Raise] outcome of a [result]; [exn] lists
      the exception classes that the program can meet.
    - The network is a function [post] from the requests sent so far and the
      current request to the outcome of [requests.post]; the list of
      requests sent is threaded as state, so that "no call was made" is the
      statement that this list did not change. *)

From Stdlib Require Import ZArith List String Ascii Bool Lia.
Import ListNotations.

#[local] Set Warnings "-register-all".
Local Open Scope string_scope.
Local Open Scope list_scope.
Local Open Scope Z_scope.

(** ** Python values *)

Inductive json : Type :=
| JNull
| JBool (b : bool)
| JInt (n : Z)
| JStr (s : string)
| JList (items : list json)
| JDict (fields : list (string * json)).

(** The exceptions of [requests.exceptions.RequestException] that
    [requests.post] and [Response.raise_for_status] raise. *)
Inductive request_exception : Type :=
| ConnectionError
| Timeout
| OtherRequestException
| HTTPError (status_code : Z).

(** The three texts that the program gives an [RpcError].  An interpolated
    f-string keeps the interpolated value instead of its rendering. *)
Inductive rpc_message : Type :=
| NetworkOrHttpError (e : request_exception)
    (* f"Network or HTTP error while calling RPC: {e}" *)
| RpcErrorPayload (payload : json)
    (* f"RPC error: {data['error']}" *)
| NoBlockFoundFor (block_id : string).
    (* f"No block found for {block_id}" *)

(** The text of a [ValueError]: a literal of the program, or the text
    that [int] gives for the string it rejects. *)
Inductive value_message : Type :=
| Text (s : string)
| InvalidLiteralBase16 (s : string).
    (* "invalid literal for int() with base 16: " + repr(s) *)

(** Exception classes.  [JSONDecodeError] is a subclass of [ValueError];
    the texts of [TypeError] and [AttributeError], chosen by the
    interpreter, are not modelled. *)
Inductive exn : Type :=
| RpcError (m : rpc_message)
| ValueError (m : value_message)
| JSONDecodeError
| TypeError
| AttributeError
| KeyError.

Inductive result (A : Type) : Type :=
| Ok (a : A)
| Raise (e : exn).
Arguments Ok {A} a.
Arguments Raise {A} e.

Definition bind {A B : Type} (r : result A) (k : A -> result B) : result B :=
  match r with
  | Ok a => k a
  | Raise e => Raise e
  end.

Declare Scope py_scope.
Delimit Scope py_scope with py.
Notation "x <- r ;; k" := (bind r (fun x => k))
  (at level 61, r at next level, right associativity) : py_scope.
Notation "' p <- r ;; k" := (bind r (fun x => match x with p => k end))
  (at level 61, p pattern, r at next level, right associativity) : py_scope.
Local Open Scope py_scope.

(** [isinstance(e, RpcError)] and [isinstance(e, ValueError)], as the
    [except] clauses of [get_block] test them. *)
Definition isinstance_RpcError (e : exn) : bool :=
  match e with
  | RpcError _ => true
  | _ => false
  end.

Definition isinstance_ValueError (e : exn) : bool :=
  match e with
  | ValueError _ | JSONDecodeError => true
  | _ => false
  end.

(** ** Built-in operations on decoded values *)

(** [bool(v)]. *)
Definition truthy (v : json) : bool :=
  match v with
  | JNull => false
  | JBool b => b
  | JInt n => negb (n =? 0)
  | JStr s => negb (s =? "")%string
  | JList l => match l with [] => false | _ => true end
  | JDict d => match d with [] => false | _ => true end
  end.

Fixpoint dict_lookup (d : list (string * json)) (k : string) : option json :=
  match d with
  | [] => None
  | (k', v) :: d' => if (k' =? k)%string then Some v else dict_lookup d' k
  end.

(** The keys of a dict in insertion order, each once. *)
Fixpoint dict_keys (d : list (string * json)) : list string :=
  match d with
  | [] => []
  | (k, _) :: d' =>
      k :: filter (fun k' => negb (k' =? k)%string) (dict_keys d')
  end.

(** [obj.get(key, default)]: only a dict has the method. *)
Definition py_get_default (obj : json) (key : string) (default : json)
  : result json :=
  match obj with
  | JDict d =>
      match dict_lookup d key with
      | Some v => Ok v
      | None => Ok default
      end
  | _ => Raise AttributeError
  end.

(** [obj.get(key)]. *)
Definition py_get (obj : json) (key : string) : result json :=
  py_get_default obj key JNull.

(** [len(obj)]. *)
Definition py_len (obj : json) : result Z :=
  match obj with
  | JList l => Ok (Z.of_nat (List.length l))
  | JDict d => Ok (Z.of_nat (List.length (dict_keys d)))
  | JStr s => Ok (Z.of_nat (String.length s))
  | _ => Raise TypeError
  end.

(** The items that [for x in obj] visits. *)
Definition py_iter (obj : json) : result (list json) :=
  match obj with
  | JList l => Ok l
  | JDict d => Ok (map JStr (dict_keys d))
  | JStr s => Ok (map (fun c => JStr (String c "")) (list_ascii_of_string s))
  | _ => Raise TypeError
  end.

Fixpoint contains (needle hay : string) : bool :=
  String.prefix needle hay
  || match hay with
     | EmptyString => false
     | String _ hay' => contains needle hay'
     end.

(** [key in obj] for a string [key]. *)
Definition py_in (key : string) (obj : json) : result bool :=
  match obj with
  | JDict d => Ok (match dict_lookup d key with Some _ => true | None => false end)
  | JList l =>
      Ok (existsb (fun x => match x with
                            | JStr s => (s =? key)%string
                            | _ => false
                            end) l)
  | JStr s => Ok (contains key s)
  | _ => Raise TypeError
  end.

(** [obj[key]] for a string [key]. *)
Definition py_getitem (obj : json) (key : string) : result json :=
  match obj with
  | JDict d =>
      match dict_lookup d key with
      | Some v => Ok v
      | None => Raise KeyError
      end
  | _ => Raise TypeError
  end.

(** ** [hex] and [int(_, 16)] *)

Definition hex_digit_char (d : Z) : ascii :=
  match d with
  | 0 => "0" | 1 => "1" | 2 => "2" | 3 => "3"
  | 4 => "4" | 5 => "5" | 6 => "6" | 7 => "7"
  | 8 => "8" | 9 => "9" | 10 => "a" | 11 => "b"
  | 12 => "c" | 13 => "d" | 14 => "e" | _ => "f"
  end%char.

(** The digits of [n >= 0] in base 16, most significant first; [fuel]
    bounds the number of digits. *)
Fixpoint hex_digits_fuel (fuel : nat) (n : Z) (acc : string) : string :=
  match fuel with
  | O => acc
  | S fuel' =>
      let acc' := String (hex_digit_char (n mod 16)) acc in
      if n / 16 =? 0 then acc' else hex_digits_fuel fuel' (n / 16) acc'
  end.

Definition hex_digits (n : Z) : string :=
  hex_digits_fuel (S (Z.to_nat (Z.log2 n))) n "".

(** [hex(n)] for a Python int. *)
Definition py_hex (n : Z) : string :=
  if n <? 0 then ("-0x" ++ hex_digits (- n))%string
  else ("0x" ++ hex_digits n)%string.

(** The value of a character as a digit of a base up to 16
    ([_PyLong_DigitValue] below 16). *)
Definition digit_value (c : ascii) : option Z :=
  let n := Z.of_N (N_of_ascii c) in
  if (48 <=? n) && (n <=? 57) then Some (n - 48)
  else if (97 <=? n) && (n <=? 102) then Some (n - 87)
  else if (65 <=? n) && (n <=? 70) then Some (n - 55)
  else None.

(** White space that [int] skips: the ASCII white space and the two
    white-space code points between 128 and 255. *)
Definition int_space (c : ascii) : bool :=
  let n := Z.of_N (N_of_ascii c) in
  ((9 <=? n) && (n <=? 13)) || (n =? 32) || (n =? 133) || (n =? 160).

Fixpoint skip_spaces (s : string) : string :=
  match s with
  | String c s' => if int_space c then skip_spaces s' else s
  | EmptyString => s
  end.

(** The run of digits and single underscores at the head of [s]:
    its value, its number of digits and what follows it; [None] on a
    doubled or trailing underscore. *)
Fixpoint digits_run (s : string) (prev_underscore : bool) (ndigits : nat)
  (acc : Z) : option (Z * nat * string) :=
  match s with
  | EmptyString =>
      if prev_underscore then None else Some (acc, ndigits, s)
  | String c s' =>
      if (c =? "_")%char then
        if prev_underscore then None else digits_run s' true ndigits acc
      else
        match digit_value c with
        | Some d => digits_run s' false (S ndigits) (16 * acc + d)
        | None => if prev_underscore then None else Some (acc, ndigits, s)
        end
  end.

(** [s[0] == c], false at the end of the string. *)
Definition head_is (c : ascii) (s : string) : bool :=
  match s with
  | String c' _ => (c' =? c)%char
  | EmptyString => false
  end.

Definition tail (s : string) : string :=
  match s with
  | String _ s' => s'
  | EmptyString => s
  end.

(** [int(s, 16)] for a string [s]: white space, a sign, the prefix [0x]
    or [0X] with one underscore allowed after it, the digits, white
    space, and nothing more. *)
Definition py_int_base16 (s : string) : result Z :=
  let invalid := Raise (ValueError (InvalidLiteralBase16 s)) in
  let s1 := skip_spaces s in
  let negative := head_is "-" s1 in
  let s2 := if head_is "+" s1 || head_is "-" s1 then tail s1 else s1 in
  let s3 :=
    if head_is "0" s2 && (head_is "x" (tail s2) || head_is "X" (tail s2))
    then
      let r := tail (tail s2) in
      if head_is "_" r then tail r else r
    else s2 in
  if head_is "_" s3 then invalid
  else
    match digits_run s3 false 0 0 with
    | None => invalid
    | Some (v, ndigits, rest) =>
        match ndigits, skip_spaces rest with
        | S _, EmptyString => Ok (if negative then - v else v)
        | _, _ => invalid
        end
    end.

(** [int(v, 16)] for a decoded value: only a string has a base. *)
Definition py_int16 (v : json) : result Z :=
  match v with
  | JStr s => py_int_base16 s
  | _ => Raise TypeError
  end.

(** ** [collections.Counter] *)

(** Lists and dicts have no hash. *)
Definition hashable (v : json) : bool :=
  match v with
  | JList _ | JDict _ => false
  | _ => true
  end.

(** [a == b] on hashable values; [True] and [False] are the integers 1
    and 0. *)
Definition key_eqb (a b : json) : bool :=
  match a, b with
  | JNull, JNull => true
  | JStr s, JStr t => (s =? t)%string
  | JBool x, JBool y => Bool.eqb x y
  | JBool x, JInt n => Z.b2z x =? n
  | JInt n, JBool y => n =? Z.b2z y
  | JInt n, JInt m => n =? m
  | _, _ => false
  end.

(** A counter in insertion order, as [dict(counter)] lists it. *)
Definition counter : Type := list (json * Z).

Fixpoint counter_bump (c : counter) (key : json) : counter :=
  match c with
  | [] => [(key, 0 + 1)]
  | (k, n) :: c' =>
      if key_eqb k key then (k, n + 1) :: c'
      else (k, n) :: counter_bump c' key
  end.

(** [c[key] += 1]: hashing [key] raises [TypeError] for a list or dict. *)
Definition counter_increment (c : counter) (key : json) : result counter :=
  if hashable key then Ok (counter_bump c key) else Raise TypeError.

(** ** [hex_block_number] (lines 18-26) *)

Definition hex_block_number (block_number : option Z) : result string :=
  match block_number with
  | None => Ok "latest"
  | Some n =>
      if n <? 0 then Raise (ValueError (Text "Block number cannot be negative"))
      else Ok (py_hex n)
  end.

(** ** [process_block] (lines 68-99) *)

Record summary : Type := {
  block_number : option Z;
  block_hash : json;
  total_transactions : Z;
  by_sender : counter;
  by_receiver : counter
}.

(** ["null" if receiver is None else receiver] (line 88). *)
Definition receiver_key (receiver : json) : json :=
  match receiver with
  | JNull => JStr "null"
  | _ => receiver
  end.

(** The body of [for tx in txs] (lines 81-89). *)
Definition tally (senders receivers : counter) (tx : json)
  : result (counter * counter) :=
  sender <- py_get tx "from" ;;
  receiver <- py_get tx "to" ;;
  senders' <- (if truthy sender then counter_increment senders sender
               else Ok senders) ;;
  receivers' <- counter_increment receivers (receiver_key receiver) ;;
  Ok (senders', receivers').

(** The loop of lines 80-89 over the items of [txs]. *)
Fixpoint tally_all (txs : list json) (senders receivers : counter)
  : result (counter * counter) :=
  match txs with
  | [] => Ok (senders, receivers)
  | tx :: rest =>
      '(senders', receivers') <- tally senders receivers tx ;;
      tally_all rest senders' receivers'
  end.

(** [int(block["number"], 16) if block.get("number") else None]
    (line 92). *)
Definition block_number_of (block : json) : result (option Z) :=
  number <- py_get block "number" ;;
  if truthy number then
    v <- py_getitem block "number" ;;
    n <- py_int16 v ;;
    Ok (Some n)
  else Ok None.

Definition process_block (block : json) : result summary :=
  txs <- py_get_default block "transactions" (JList []) ;;
  total_txs <- py_len txs ;;
  items <- py_iter txs ;;
  '(senders, receivers) <- tally_all items [] [] ;;
  number <- block_number_of block ;;
  hash <- py_get block "hash" ;;
  Ok {| block_number := number;
        block_hash := hash;
        total_transactions := total_txs;
        by_sender := senders;
        by_receiver := receivers |}.

(** ** The RPC client and the handler *)

Record rpc_request : Type := {
  jsonrpc : string;
  id : Z;
  method : string;
  params : list json
}.

(** What [requests.post] hands back: the HTTP status and the body, [None]
    when the body is not JSON. *)
Record response : Type := {
  status_code : Z;
  body : option json
}.

Inductive post_outcome : Type :=
| PostRaises (e : request_exception)
| PostReturns (r : response).

(** [response.raise_for_status()]: the exception raised, if any. *)
Definition raise_for_status (r : response) : option request_exception :=
  if (400 <=? status_code r) && (status_code r <? 600)
  then Some (HTTPError (status_code r))
  else None.

(** [response.json()]. *)
Definition response_json (r : response) : result json :=
  match body r with
  | Some data => Ok data
  | None => Raise JSONDecodeError
  end.

(** The detail of an [HTTPException]: [str(e)] or
    [f"Unexpected server error: {e}"]. *)
Inductive detail : Type :=
| StrOf (e : exn)
| UnexpectedServerError (e : exn).

Inductive http_response : Type :=
| Return200 (s : summary)
| HTTPException (status : Z) (d : detail).

Definition http_status (r : http_response) : Z :=
  match r with
  | Return200 _ => 200
  | HTTPException status _ => status
  end.

(** The payload of a call (lines 33-38). *)
Definition request_of (method : string) (params : list json) : rpc_request :=
  {| jsonrpc := "2.0"; id := 1; method := method; params := params |}.

Section Network.

(** The RPC endpoint: the outcome of posting a request, given the
    requests sent before. *)
Variable post : list rpc_request -> rpc_request -> post_outcome.

(** [call_rpc] (lines 29-51); [sent] is the list of requests posted so
    far. *)
Definition call_rpc (method : string) (params : list json)
  (sent : list rpc_request) : list rpc_request * result json :=
  let payload := request_of method params in
  (sent ++ [payload],
   match post sent payload with
   | PostRaises e => Raise (RpcError (NetworkOrHttpError e))
   | PostReturns response =>
       match raise_for_status response with
       | Some e => Raise (RpcError (NetworkOrHttpError e))
       | None =>
           data <- response_json response ;;
           has_error <- py_in "error" data ;;
           if has_error then
             error <- py_getitem data "error" ;;
             Raise (RpcError (RpcErrorPayload error))
           else py_get data "result"
       end
   end).

(** [fetch_block] (lines 54-65). *)
Definition fetch_block (block_number : option Z) (sent : list rpc_request)
  : list rpc_request * result json :=
  match hex_block_number block_number with
  | Raise e => (sent, Raise e)
  | Ok block_id =>
      let '(sent', r) :=
        call_rpc "eth_getBlockByNumber" [JStr block_id; JBool true] sent in
      (sent',
       result <- r ;;
       match result with
       | JNull => Raise (RpcError (NoBlockFoundFor block_id))
       | _ => Ok result
       end)
  end.

(** [get_block] (lines 126-148): the [try] body, then the [except]
    clauses in their order. *)
Definition get_block (number : option Z) (sent : list rpc_request)
  : list rpc_request * http_response :=
  let '(sent', fetched) := fetch_block number sent in
  (sent',
   match (block <- fetched ;; process_block block) with
   | Ok summary => Return200 summary
   | Raise e =>
       if isinstance_RpcError e then HTTPException 502 (StrOf e)
       else if isinstance_ValueError e then HTTPException 400 (StrOf e)
       else HTTPException 500 (UnexpectedServerError e)
   end).

End Network.

(** ** Specification side: lowercase hexadecimal numerals *)

(** The value of a lowercase hexadecimal digit. *)
Definition lower_hex_digit (c : ascii) : option Z :=
  let n := Z.of_N (N_of_ascii c) in
  if (48 <=? n) && (n <=? 57) then Some (n - 48)
  else if (97 <=? n) && (n <=? 102) then Some (n - 87)
  else None.

(** The number that the digits [ds] denote after the digits of [acc];
    [None] when a character is not a lowercase hexadecimal digit. *)
Fixpoint numeral_value (acc : Z) (ds : string) : option Z :=
  match ds with
  | EmptyString => Some acc
  | String c ds' =>
      match lower_hex_digit c with
      | Some d => numeral_value (16 * acc + d) ds'
      | None => None
      end
  end.

(** [ds] is the lowercase hexadecimal numeral of [n] without leading
    zeros: at least one digit, and a first digit 0 only when it is the
    only digit. *)
Definition lower_hex_numeral (ds : string) (n : Z) : Prop :=
  ds <> "" /\
  numeral_value 0 ds = Some n /\
  (forall rest, ds = String "0" rest -> rest = "").

(** ** Specification side: base-16 literals *)

(** The white space that may stand around a literal: tab, line feed,
    vertical tab, form feed, carriage return, space, next line and
    no-break space. *)
Definition white_space (c : ascii) : Prop :=
  In (N_of_ascii c) [9; 10; 11; 12; 13; 32; 133; 160]%N.

Fixpoint all_white (s : string) : Prop :=
  match s with
  | EmptyString => True
  | String c s' => white_space c /\ all_white s'
  end.

(** The value of a hexadecimal digit of either case. *)
Definition hex_digit (c : ascii) : option Z :=
  match lower_hex_digit c with
  | Some d => Some d
  | None =>
      let n := Z.of_N (N_of_ascii c) in
      if (65 <=? n) && (n <=? 70) then Some (n - 55) else None
  end.

(** [hex_body acc ds v]: [ds] is a run of hexadecimal digits, with single
    underscores allowed between two digits, and [v] is the number that
    the digits denote after the digits of [acc]. *)
Inductive hex_body : Z -> string -> Z -> Prop :=
| body_last (acc : Z) (c : ascii) (d : Z) :
    hex_digit c = Some d ->
    hex_body acc (String c "") (16 * acc + d)
| body_digit (acc : Z) (c : ascii) (d : Z) (ds : string) (v : Z) :
    hex_digit c = Some d ->
    hex_body (16 * acc + d) ds v ->
    hex_body acc (String c ds) v
| body_underscore (acc : Z) (c : ascii) (d : Z) (ds : string) (v : Z) :
    hex_digit c = Some d ->
    hex_body (16 * acc + d) ds v ->
    hex_body acc (String c (String "_" ds)) v.

(** [s] is a base-16 literal of the integer [n], in the words of the
    language reference for [int(s, 16)]: optional white space, an
    optional sign, an optional prefix [0x] or [0X] (after which one
    underscore may stand), hexadecimal digits with single underscores
    between them, and optional white space. *)
Definition base16_literal (s : string) (n : Z) : Prop :=
  exists lead sign prefix body trail v,
    s = (lead ++ sign ++ prefix ++ body ++ trail)%string /\
    all_white lead /\ all_white trail /\
    (sign = "" /\ n = v \/ sign = "+" /\ n = v \/ sign = "-" /\ n = - v) /\
    In prefix [""; "0x"; "0X"; "0x_"; "0X_"] /\
    hex_body 0 body v.

(** ** Specification side: tallies, failure kinds, well-formed blocks *)

(** The sum of the counts of a counter. *)
Definition counter_total (c : counter) : Z :=
  fold_right (fun entry acc => snd entry + acc) 0 c.

(** The failure kinds of the specification: [InvalidArgument] is bad
    input of the caller (the negative block number), [TransportError] a
    failure of the network, of the timeout or of the HTTP status,
    [RpcProtocolError] the error object that the node returns and
    [NotFound] the block that does not exist yet; any other failure is
    unexpected. *)
Inductive failure_kind : Type :=
| InvalidArgument
| TransportError
| RpcProtocolError
| NotFound
| OtherFailure.

(** The kind of each failure that the program raises.  The program
    itself rejects an argument with a [ValueError] that carries its own
    text; the body of the node that is not JSON, the [number] of the
    node's block that [int] rejects and a value of the wrong type are
    none of the four named kinds. *)
Definition kind_of (e : exn) : failure_kind :=
  match e with
  | ValueError (Text _) => InvalidArgument
  | RpcError (NetworkOrHttpError _) => TransportError
  | RpcError (RpcErrorPayload _) => RpcProtocolError
  | RpcError (NoBlockFoundFor _) => NotFound
  | ValueError (InvalidLiteralBase16 _) | JSONDecodeError
  | TypeError | AttributeError | KeyError => OtherFailure
  end.



(** The value of a field of a dict, [JNull] when absent. *)
Definition field (fields : list (string * json)) (key : string) : json :=
  match dict_lookup fields key with
  | Some v => v
  | None => JNull
  end.

(** A transaction that the loop body accepts: a dict whose [from], when
    not empty, and whose [to] can be hashed. *)
Definition tx_ok (tx : json) : bool :=
  match tx with
  | JDict fields =>
      (negb (truthy (field fields "from")) || hashable (field fields "from"))
      && hashable (field fields "to")
  | _ => false
  end.

(** A block that [process_block] summarises: its transactions, when
    present, are a list of accepted transactions, and its number, when
    not empty, is a base-16 literal. *)
Definition block_ok (fields : list (string * json)) : bool :=
  match dict_lookup fields "transactions" with
  | None => true
  | Some (JList txs) => forallb tx_ok txs
  | Some _ => false
  end
  && match block_number_of (JDict fields) with
     | Ok _ => true
     | Raise _ => false
     end.

(** ** Sample data *)

(** A node that answers every request with [r]. *)
Definition node_replying (r : response)
  : list rpc_request -> rpc_request -> post_outcome :=
  fun _ _ => PostReturns r.

(** A node that cannot be reached. *)
Definition node_unreachable
  : list rpc_request -> rpc_request -> post_outcome :=
  fun _ _ => PostRaises ConnectionError.

(** A reply with a null result, as a node gives for a block beyond the
    head of the chain. *)
Definition null_reply : response :=
  {| status_code := 200;
     body := Some (JDict [("jsonrpc", JStr "2.0"); ("id", JInt 1);
                          ("result", JNull)]) |}.

Definition rpc_error_payload : json :=
  JDict [("code", JInt (-32602)); ("message", JStr "invalid argument")].

(** A JSON-RPC error object sent with the HTTP status [status]. *)
Definition error_reply (status : Z) : response :=
  {| status_code := status;
     body := Some (JDict [("jsonrpc", JStr "2.0"); ("id", JInt 1);
                          ("error", rpc_error_payload)]) |}.

Definition three_transactions : list json :=
  [ JDict [("from", JStr "A"); ("to", JStr "B")];
    JDict [("from", JStr "A"); ("to", JNull)];
    JDict [("from", JStr "C"); ("to", JStr "B")] ].

Definition sample_block : json :=
  JDict [("number", JStr "0x1406f40");
         ("hash", JStr "0xabc");
         ("transactions", JList three_transactions)].

(** ** Specification side: occurrences of addresses *)

(** The count that a reader of the map finds under [key], 0 when the map
    has no entry for it. *)
Definition counter_get (c : counter) (key : json) : Z :=
  match find (fun entry => key_eqb (fst entry) key) c with
  | Some entry => snd entry
  | None => 0
  end.

(** A map as a dict holds it: every count is at least 1 and no key
    equals a later one. *)
Fixpoint counter_wf (c : counter) : bool :=
  match c with
  | [] => true
  | (k, n) :: c' =>
      (1 <=? n)
      && forallb (fun entry => negb (key_eqb k (fst entry))) c'
      && counter_wf c'
  end.

(** What a hashable value is as a key: [True] and [False] are the
    numbers 1 and 0. *)
Inductive key_repr : Type :=
| KNone
| KNum (n : Z)
| KStr (s : string).

Definition key_of (v : json) : option key_repr :=
  match v with
  | JNull => Some KNone
  | JBool b => Some (KNum (Z.b2z b))
  | JInt n => Some (KNum n)
  | JStr s => Some (KStr s)
  | JList _ | JDict _ => None
  end.

(** The transactions of a block: the list under [transactions], none
    when the field is absent. *)
Definition transactions_of (block : json) : list json :=
  match block with
  | JDict fields =>
      match dict_lookup fields "transactions" with
      | Some (JList txs) => txs
      | _ => []
      end
  | _ => []
  end.

(** The non-empty [from] values of the transactions, in order. *)
Definition senders_of (txs : list json) : list json :=
  flat_map (fun tx =>
              match tx with
              | JDict fields =>
                  if truthy (field fields "from")
                  then [field fields "from"] else []
              | _ => []
              end) txs.

(** The receiver keys of the transactions, in order. *)
Definition receivers_of (txs : list json) : list json :=
  flat_map (fun tx =>
              match tx with
              | JDict fields => [receiver_key (field fields "to")]
              | _ => []
              end) txs.

(** How many of [keys] equal [key]. *)
Definition occurrences (keys : list json) (key : json) : Z :=
  Z.of_nat (List.length (filter (fun k => key_eqb k key) keys)).

(** The values of [transactions] that the loop runs through: a list of
    accepted transactions, or a string or dict with nothing in it. *)
Definition txs_ok (txs : json) : bool :=
  match txs with
  | JList l => forallb tx_ok l
  | JStr s => (s =? "")%string
  | JDict d => match d with [] => true | _ => false end
  | _ => false
  end.

(** A value that counts as empty: null, false, zero, or a string,
    list or dict with nothing in it. *)
Definition empty_value (v : json) : Prop :=
  v = JNull \/ v = JBool false \/ v = JInt 0 \/ v = JStr "" \/
  v = JList [] \/ v = JDict [].

(** The blocks for which [process_block] returns: dicts whose
    [transactions], when present, the loop runs through, and whose
    [number] is absent, empty or a string that is a base-16 literal. *)
Definition block_accepted (block : json) : Prop :=
  exists fields,
    block = JDict fields /\
    txs_ok (match dict_lookup fields "transactions" with
            | Some txs => txs
            | None => JList []
            end) = true /\
    (dict_lookup fields "number" = None \/
     (exists number,
        dict_lookup fields "number" = Some number /\ empty_value number) \/
     (exists s n,
        dict_lookup fields "number" = Some (JStr s) /\ base16_literal s n)).

(** Two transactions that the loop body cannot tell apart: dicts with
    the same [from] and the same [to], an absent field counting as
    null. *)
Definition tx_same (tx tx' : json) : Prop :=
  match tx, tx' with
  | JDict fields, JDict fields' =>
      field fields "from" = field fields' "from" /\
      field fields "to" = field fields' "to"
  | _, _ => tx = tx'
  end.

(** The request that [fetch_block] makes for [block_id] (line 60). *)
Definition block_request (block_id : string) : rpc_request :=
  request_of "eth_getBlockByNumber" [JStr block_id; JBool true].

(** A reply that carries [block] as its result. *)
Definition block_reply (block : json) : response :=
  {| status_code := 200;
     body := Some (JDict [("jsonrpc", JStr "2.0"); ("id", JInt 1);
                          ("result", block)]) |}.

(** A reply whose body is not JSON, as a gateway page is. *)
Definition html_reply : response :=
  {| status_code := 200; body := None |}.

(** A reply whose body is a JSON array. *)
Definition array_reply : response :=
  {| status_code := 200; body := Some (JList [JStr "error"]) |}.

(** A node that times out. *)
Definition node_timing_out
  : list rpc_request -> rpc_request -> post_outcome :=
  fun _ _ => PostRaises Timeout.

(** ** Specification side: what the node answered *)



(** * Proofs *)

(** ** Hexadecimal digits *)

Lemma hex_digit_cases (d : Z) :
  0 <= d < 16 ->
  d = 0 \/ d = 1 \/ d = 2 \/ d = 3 \/ d = 4 \/ d = 5 \/ d = 6 \/ d = 7 \/
  d = 8 \/ d = 9 \/ d = 10 \/ d = 11 \/ d = 12 \/ d = 13 \/ d = 14 \/ d = 15.
Proof. lia. Qed.

Ltac each_hex_digit d H :=
  destruct (hex_digit_cases d H) as
    [?|[?|[?|[?|[?|[?|[?|[?|[?|[?|[?|[?|[?|[?|[?|?]]]]]]]]]]]]]]];
  subst d.

Lemma lower_hex_digit_char (d : Z) :
  0 <= d < 16 -> lower_hex_digit (hex_digit_char d) = Some d.
Proof. intros H. each_hex_digit d H; reflexivity. Qed.

Lemma hex_digit_char_zero (d : Z) :
  0 <= d < 16 -> hex_digit_char d = "0"%char -> d = 0.
Proof. intros H. each_hex_digit d H; intros E; try reflexivity; discriminate E. Qed.

Lemma lower_hex_digit_value (c : ascii) (d : Z) :
  lower_hex_digit c = Some d ->
  digit_value c = Some d /\ (c =? "_")%char = false.
Proof.
  unfold lower_hex_digit, digit_value. intros H. split.
  - destruct ((48 <=? _) && (_ <=? 57)); [assumption|].
    destruct ((97 <=? _) && (_ <=? 102)); [assumption|discriminate].
  - apply Ascii.eqb_neq. intros ->. discriminate H.
Qed.

Lemma append_assoc' (s t u : string) : ((s ++ t) ++ u = s ++ (t ++ u))%string.
Proof. induction s as [|c s IH]; simpl; [reflexivity|now rewrite IH]. Qed.

Lemma numeral_value_app (s t : string) : forall acc,
  numeral_value acc (s ++ t) =
  match numeral_value acc s with
  | Some v => numeral_value v t
  | None => None
  end.
Proof.
  induction s as [|c s IH]; intros acc; simpl; [reflexivity|].
  destruct (lower_hex_digit c); [apply IH|reflexivity].
Qed.

Lemma hex_digits_fuel_acc (fuel : nat) : forall n acc,
  hex_digits_fuel fuel n acc = (hex_digits_fuel fuel n "" ++ acc)%string.
Proof.
  induction fuel as [|fuel IH]; intros n acc; simpl; [reflexivity|].
  destruct (n / 16 =? 0); [reflexivity|].
  rewrite (IH _ (String _ acc)), (IH _ (String _ "")), append_assoc'.
  reflexivity.
Qed.

Lemma hex_digits_fuel_S (fuel : nat) (n : Z) (acc : string) :
  hex_digits_fuel (S fuel) n acc =
  if n / 16 =? 0 then String (hex_digit_char (n mod 16)) acc
  else hex_digits_fuel fuel (n / 16) (String (hex_digit_char (n mod 16)) acc).
Proof. reflexivity. Qed.

(** With enough fuel the digits produced denote [n], and the first of
    them is 0 only for [n = 0]. *)
Lemma hex_digits_fuel_numeral (fuel : nat) : forall n,
  0 <= n < 16 ^ Z.of_nat (S fuel) ->
  exists c ds,
    hex_digits_fuel (S fuel) n "" = String c ds /\
    numeral_value 0 (String c ds) = Some n /\
    (c = "0"%char -> n = 0 /\ ds = "").
Proof.
  induction fuel as [|fuel IH]; intros n Hn;
    assert (Hmod : 0 <= n mod 16 < 16) by (apply Z.mod_pos_bound; lia);
    assert (Hdiv : n = 16 * (n / 16) + n mod 16) by (apply Z.div_mod; lia);
    rewrite hex_digits_fuel_S; destruct (Z.eqb_spec (n / 16) 0) as [E|E].
  1, 3: exists (hex_digit_char (n mod 16)), ""; split; [reflexivity|];
    cbn [numeral_value]; rewrite lower_hex_digit_char by assumption; split;
    [ f_equal; lia
    | intros H0; apply hex_digit_char_zero in H0; [|assumption];
      split; [lia|reflexivity] ].
  - exfalso. apply E. apply Z.div_small. change (16 ^ Z.of_nat 1) with 16 in Hn. lia.
  - assert (Hq : 0 <= n / 16 < 16 ^ Z.of_nat (S fuel)).
    { split; [apply Z.div_pos; lia|].
      apply Z.div_lt_upper_bound; [lia|].
      rewrite (Nat2Z.inj_succ (S fuel)), Z.pow_succ_r in Hn by lia. lia. }
    destruct (IH _ Hq) as (c & ds & Hds & Hval & Hzero).
    rewrite hex_digits_fuel_acc, Hds. cbn [append].
    exists c, (ds ++ String (hex_digit_char (n mod 16)) "")%string.
    split; [reflexivity|]. split.
    + change (String c (ds ++ String (hex_digit_char (n mod 16)) ""))%string
        with (String c ds ++ String (hex_digit_char (n mod 16)) "")%string.
      rewrite numeral_value_app, Hval. cbn [numeral_value].
      rewrite lower_hex_digit_char by assumption. f_equal. lia.
    + intros H0. destruct (Hzero H0) as [Hz _]. congruence.
Qed.

Lemma hex_digits_fuel_enough (n : Z) :
  0 <= n -> n < 16 ^ Z.of_nat (S (Z.to_nat (Z.log2 n))).
Proof.
  intros Hn. rewrite Nat2Z.inj_succ, Z2Nat.id by apply Z.log2_nonneg.
  destruct (Z.eq_dec n 0) as [->|Hnz]; [reflexivity|].
  destruct (Z.log2_spec n) as [_ Hlt]; [lia|].
  eapply Z.lt_le_trans; [exact Hlt|].
  apply Z.pow_le_mono_l. lia.
Qed.

Lemma hex_digits_numeral (n : Z) :
  0 <= n -> lower_hex_numeral (hex_digits n) n.
Proof.
  intros Hn. unfold hex_digits.
  destruct (hex_digits_fuel_numeral _ n (conj Hn (hex_digits_fuel_enough n Hn)))
    as (c & ds & Hds & Hval & Hzero).
  rewrite Hds. split; [discriminate|]. split; [assumption|].
  intros rest E. injection E as Ec Er. subst rest. now apply Hzero.
Qed.

Example py_int_base16_examples :
  map py_int_base16
    ["0x10"; "0X1f"; " 0x1f "; "+0x1"; "-0x1"; "0x_1"; "1_0"; "0"; "00ff";
     "0x1406f40"] =
  map Ok [16; 31; 31; 1; -1; 1; 16; 0; 255; 21000000] /\
  map py_int_base16
    ["zz"; "0x"; "- 1"; "0x__1"; "_1"; "1__0"; "1_"; ""; "  "; "0x+1"; "0xx1"] =
  map (fun s => Raise (ValueError (InvalidLiteralBase16 s)))
    ["zz"; "0x"; "- 1"; "0x__1"; "_1"; "1__0"; "1_"; ""; "  "; "0x+1"; "0xx1"].
Proof. split; reflexivity. Qed.

Example py_hex_examples :
  map py_hex [0; 255; -255; 21000000] = ["0x0"; "0xff"; "-0xff"; "0x1406f40"].
Proof. reflexivity. Qed.

(** A run of lowercase hexadecimal digits is read to its end. *)
Lemma digits_run_numeral (ds : string) : forall acc k v,
  numeral_value acc ds = Some v ->
  digits_run ds false k acc = Some (v, (k + String.length ds)%nat, "").
Proof.
  induction ds as [|c ds IH]; intros acc k v H; cbn in H |- *.
  - injection H as ->. now rewrite Nat.add_0_r.
  - destruct (lower_hex_digit c) as [d|] eqn:Hc; [|discriminate].
    destruct (lower_hex_digit_value _ _ Hc) as [-> ->].
    rewrite (IH _ (S k) _ H). now rewrite Nat.add_succ_r.
Qed.

Lemma py_int_base16_numeral (ds : string) (n : Z) :
  lower_hex_numeral ds n ->
  py_int_base16 ("0x" ++ ds) = Ok n /\ py_int_base16 ("-0x" ++ ds) = Ok (- n).
Proof.
  intros (Hne & Hval & _). destruct ds as [|c ds]; [contradiction|].
  assert (Hc : (c =? "_")%char = false).
  { cbn in Hval. destruct (lower_hex_digit c) eqn:E; [|discriminate].
    apply (lower_hex_digit_value _ _ E). }
  split; unfold py_int_base16; cbn -[digits_run]; rewrite !Hc;
    rewrite (digits_run_numeral _ _ _ _ Hval); cbn; rewrite Hc; reflexivity.
Qed.

(** [int(hex(n), 16) == n]. *)
Lemma py_int_base16_hex (n : Z) : py_int_base16 (py_hex n) = Ok n.
Proof.
  unfold py_hex. destruct (Z.ltb_spec n 0) as [Hn|Hn].
  - replace n with (- - n) at 2 by lia.
    apply py_int_base16_numeral, hex_digits_numeral. lia.
  - apply py_int_base16_numeral, hex_digits_numeral. lia.
Qed.

(** ** Base-16 literals *)

Lemma int_space_white (c : ascii) : int_space c = true <-> white_space c.
Proof.
  unfold int_space, white_space. cbn [In].
  rewrite !orb_true_iff, andb_true_iff, Z.leb_le, Z.leb_le, !Z.eqb_eq.
  lia.
Qed.

Lemma hex_digit_value (c : ascii) : hex_digit c = digit_value c.
Proof.
  unfold hex_digit, lower_hex_digit, digit_value.
  destruct (_ && _); [reflexivity|]. destruct (_ && _); reflexivity.
Qed.

(** A digit is no white space, underscore, sign or prefix letter. *)
Lemma digit_value_not (c : ascii) (d : Z) :
  digit_value c = Some d ->
  int_space c = false /\ (c =? "_")%char = false /\
  (c =? "+")%char = false /\ (c =? "-")%char = false /\
  (c =? "x")%char = false /\ (c =? "X")%char = false.
Proof.
  intros H. split.
  - unfold digit_value in H. unfold int_space.
    destruct ((48 <=? _) && (_ <=? 57)) eqn:E1;
      [|destruct ((97 <=? _) && (_ <=? 102)) eqn:E2;
        [|destruct ((65 <=? _) && (_ <=? 70)) eqn:E3; [|discriminate]]];
      match goal with
      | E : _ && _ = true |- _ =>
          apply andb_prop in E as [Ea Eb];
          apply Z.leb_le in Ea; apply Z.leb_le in Eb
      end;
      repeat (apply orb_false_intro);
      try (apply andb_false_iff; rewrite !Z.leb_gt; lia);
      apply Z.eqb_neq; lia.
  - repeat split; apply Ascii.eqb_neq; intros ->; discriminate H.
Qed.

(** White space is no digit, underscore, sign or zero. *)
Lemma int_space_not (c : ascii) :
  int_space c = true ->
  digit_value c = None /\ (c =? "_")%char = false /\
  (c =? "+")%char = false /\ (c =? "-")%char = false /\
  (c =? "0")%char = false /\ (c =? "x")%char = false /\
  (c =? "X")%char = false.
Proof.
  intros H. split.
  - destruct (digit_value c) as [d|] eqn:E; [|reflexivity].
    apply digit_value_not in E as [E _]. congruence.
  - repeat split; apply Ascii.eqb_neq; intros ->; discriminate H.
Qed.

Lemma head_is_tail (c : ascii) (s : string) :
  head_is c s = true -> s = String c (tail s).
Proof.
  destruct s as [|c' s]; cbn; [discriminate|].
  intros H. apply Ascii.eqb_eq in H. now subst.
Qed.

Lemma skip_spaces_white (s : string) :
  all_white s -> forall t, skip_spaces (s ++ t) = skip_spaces t.
Proof.
  induction s as [|c s IH]; intros H t; [reflexivity|].
  destruct H as [Hc Hs]. apply int_space_white in Hc.
  cbn [append skip_spaces]. rewrite Hc. now apply IH.
Qed.

Lemma skip_spaces_split (s : string) :
  exists lead, s = (lead ++ skip_spaces s)%string /\ all_white lead.
Proof.
  induction s as [|c s (lead & Hs & Hl)]; [now exists ""|].
  cbn [skip_spaces]. destruct (int_space c) eqn:E.
  - exists (String c lead). cbn [append]. split; [now f_equal|].
    split; [now apply int_space_white|assumption].
  - now exists "".
Qed.

Lemma skip_spaces_empty (s : string) : skip_spaces s = "" <-> all_white s.
Proof.
  induction s as [|c s IH]; cbn [skip_spaces all_white]; [tauto|].
  destruct (int_space c) eqn:E.
  - rewrite IH. apply int_space_white in E. tauto.
  - split; [discriminate|]. intros [Hc _]. apply int_space_white in Hc.
    congruence.
Qed.

Lemma skip_spaces_head (c : ascii) (s : string) :
  int_space c = false -> skip_spaces (String c s) = String c s.
Proof. intros H. cbn [skip_spaces]. now rewrite H. Qed.

Lemma skip_spaces_not_space (s : string) (c : ascii) (r : string) :
  skip_spaces s = String c r -> int_space c = false.
Proof.
  induction s as [|c' s IH]; cbn [skip_spaces]; [discriminate|].
  destruct (int_space c') eqn:E; [assumption|].
  intros H. injection H as <- _. assumption.
Qed.

(** What [digits_run] has read when it returns: after an underscore, a
    body; otherwise nothing, a body, or an underscore and a body. *)
Lemma digits_run_sound (s : string) :
  forall prev k acc v k' rest,
  digits_run s prev k acc = Some (v, k', rest) ->
  (prev = false /\ v = acc /\ k' = k /\ rest = s) \/
  exists body,
    hex_body acc body v /\ (k < k')%nat /\
    (s = (body ++ rest)%string \/
     prev = false /\ s = String "_" (body ++ rest)).
Proof.
  induction s as [|c s IH]; intros prev k acc v k' rest H; cbn [digits_run] in H.
  - destruct prev; [discriminate|]. injection H as <- <- <-. now left.
  - destruct (c =? "_")%char eqn:Eu.
    + destruct prev; [discriminate|].
      apply Ascii.eqb_eq in Eu. subst c.
      apply IH in H as [(Hp & _)|(body & Hb & Hk & [Hs|(Hp & _)])];
        try discriminate.
      right. exists body. split; [assumption|]. split; [assumption|].
      right. split; [reflexivity|]. now rewrite Hs.
    + destruct (digit_value c) as [d|] eqn:Ed.
      * right. rewrite <- hex_digit_value in Ed.
        apply IH in H as [(_ & -> & -> & ->)|(body & Hb & Hk & [Hs|(_ & Hs)])].
        -- exists (String c ""). split; [now constructor|].
           split; [lia|]. now left.
        -- exists (String c body). split; [now apply body_digit with d|].
           split; [lia|]. left. cbn [append]. now rewrite Hs.
        -- exists (String c (String "_" body)).
           split; [now apply body_underscore with d|].
           split; [lia|]. left. cbn [append]. now rewrite Hs.
      * destruct prev; [discriminate|]. injection H as <- <- <-. now left.
Qed.

(** White space stops the run at once. *)
Lemma digits_run_white (rest : string) :
  all_white rest ->
  forall k acc, digits_run rest false k acc = Some (acc, k, rest).
Proof.
  destruct rest as [|c rest]; intros H k acc; [reflexivity|].
  destruct H as [Hc _]. apply int_space_white, int_space_not in Hc.
  destruct Hc as (Hd & Hu & _). cbn [digits_run]. now rewrite Hu, Hd.
Qed.

(** A body is read to its end when what follows it stops the run. *)
Lemma digits_run_complete (acc : Z) (body : string) (v : Z) :
  hex_body acc body v ->
  forall prev k rest,
    (forall k a, digits_run rest false k a = Some (a, k, rest)) ->
    exists k', digits_run (body ++ rest) prev k acc = Some (v, S k', rest).
Proof.
  induction 1 as [acc c d Hd|acc c d ds v Hd _ IH|acc c d ds v Hd _ IH];
    intros prev k rest Hrest;
    rewrite hex_digit_value in Hd;
    destruct (digit_value_not _ _ Hd) as (_ & Hu & _);
    cbn [append digits_run]; rewrite Hu, Hd.
  - exists k. apply Hrest.
  - destruct (IH false (S k) rest Hrest) as [k' Hk']. eauto.
  - cbn [digits_run]. destruct (IH true (S k) rest Hrest) as [k' Hk']. eauto.
Qed.

(** The first character of a body is a digit, and what follows it in a
    body that white space ends is no prefix letter. *)
Lemma hex_body_head (acc : Z) (body : string) (v : Z) (trail : string) :
  hex_body acc body v -> all_white trail ->
  exists c d ds,
    body = String c ds /\ digit_value c = Some d /\
    head_is "x" (ds ++ trail) = false /\ head_is "X" (ds ++ trail) = false.
Proof.
  intros H Ht.
  destruct H as [acc c d Hd|acc c d ds v Hd Hb|acc c d ds v Hd Hb];
    rewrite hex_digit_value in Hd.
  - exists c, d, "". repeat split; try assumption;
      (destruct trail as [|c' trail]; [reflexivity|]);
      destruct Ht as [Hc _]; apply int_space_white, int_space_not in Hc;
      cbn; tauto.
  - exists c, d, ds. repeat split; try assumption;
      destruct Hb as [? c' d' Hd'|? c' d' ? ? Hd' _|? c' d' ? ? Hd' _];
      rewrite hex_digit_value in Hd';
      apply digit_value_not in Hd'; cbn; tauto.
  - exists c, d, (String "_" ds). repeat split; try assumption; reflexivity.
Qed.

(** [int(s, 16)] returns [n] for every base-16 literal of [n]. *)
Lemma py_int_base16_complete (s : string) (n : Z) :
  base16_literal s n -> py_int_base16 s = Ok n.
Proof.
  intros (lead & sign & prefix & body & trail & v & -> & Hl & Ht & Hs & Hp & Hb).
  destruct (hex_body_head _ _ _ trail Hb Ht) as (c & d & ds & -> & Hd & Hx & HX).
  destruct (digit_value_not _ _ Hd) as (Hsp & Hu & Hplus & Hminus & _).
  destruct (digits_run_complete _ _ _ Hb false 0%nat trail
              (digits_run_white _ Ht)) as [k' Hrun].
  assert (Hend : skip_spaces trail = "") by now apply skip_spaces_empty.
  unfold py_int_base16. rewrite (skip_spaces_white _ Hl).
  cbn [In] in Hp.
  destruct Hs as [[-> ->]|[[-> ->]|[-> ->]]];
    destruct Hp as [<-|[<-|[<-|[<-|[<-|[]]]]]];
    cbn [append];
    rewrite skip_spaces_head by (assumption || reflexivity);
    repeat (progress (cbn [head_is tail orb andb Ascii.eqb Bool.eqb];
                      rewrite ?Hplus, ?Hminus, ?Hx, ?HX, ?Hu, ?andb_false_r));
    cbn [append] in Hrun; rewrite Hrun, Hend; reflexivity.
Qed.

(** The sign that [int] strips. *)
Lemma strip_sign (s1 : string) :
  exists sign,
    s1 = (sign ++ (if head_is "+" s1 || head_is "-" s1
                   then tail s1 else s1))%string /\
    (sign = "" /\ head_is "-" s1 = false \/
     sign = "+" /\ head_is "-" s1 = false \/
     sign = "-" /\ head_is "-" s1 = true).
Proof.
  destruct (head_is "+" s1) eqn:Ep; [|destruct (head_is "-" s1) eqn:Em].
  - exists "+". apply head_is_tail in Ep. split; [exact Ep|].
    right. left. split; [reflexivity|]. now rewrite Ep.
  - exists "-". apply head_is_tail in Em. split; [exact Em|]. now right; right.
  - exists "". split; [reflexivity|]. now left.
Qed.

(** The prefix that [int] strips. *)
Lemma strip_prefix (s2 : string) :
  exists prefix,
    s2 = (prefix ++
          (if head_is "0" s2 && (head_is "x" (tail s2) || head_is "X" (tail s2))
           then
             if head_is "_" (tail (tail s2)) then tail (tail (tail s2))
             else tail (tail s2)
           else s2))%string /\
    In prefix [""; "0x"; "0X"; "0x_"; "0X_"].
Proof.
  destruct (head_is "0" s2) eqn:E0; cbn [andb];
    [|exists ""; split; [reflexivity|now left]].
  apply head_is_tail in E0.
  destruct (head_is "x" (tail s2)) eqn:Ex; cbn [orb];
    [|destruct (head_is "X" (tail s2)) eqn:EX;
      [|exists ""; split; [reflexivity|now left]]].
  - apply head_is_tail in Ex.
    destruct (head_is "_" (tail (tail s2))) eqn:Eu.
    + apply head_is_tail in Eu. exists "0x_". cbn [append In].
      split; [congruence|tauto].
    + exists "0x". cbn [append In]. split; [congruence|tauto].
  - apply head_is_tail in EX.
    destruct (head_is "_" (tail (tail s2))) eqn:Eu.
    + apply head_is_tail in Eu. exists "0X_". cbn [append In].
      split; [congruence|tauto].
    + exists "0X". cbn [append In]. split; [congruence|tauto].
Qed.

(** [int(s, 16)] returns [n] only for a base-16 literal of [n]. *)
Lemma py_int_base16_sound (s : string) (n : Z) :
  py_int_base16 s = Ok n -> base16_literal s n.
Proof.
  unfold py_int_base16. cbv zeta.
  destruct (skip_spaces_split s) as (lead & Hs & Hl).
  destruct (strip_sign (skip_spaces s)) as (sign & Hsign & Hneg).
  set (s2 := if head_is "+" (skip_spaces s) || head_is "-" (skip_spaces s)
             then tail (skip_spaces s) else skip_spaces s) in *.
  destruct (strip_prefix s2) as (prefix & Hprefix & Hin).
  set (s3 := if head_is "0" s2 && (head_is "x" (tail s2) || head_is "X" (tail s2))
             then
               if head_is "_" (tail (tail s2)) then tail (tail (tail s2))
               else tail (tail s2)
             else s2) in *.
  destruct (head_is "_" s3) eqn:Eu; [discriminate|].
  destruct (digits_run s3 false 0 0) as [[[v k] rest]|] eqn:Er; [|discriminate].
  destruct k as [|k]; [discriminate|].
  destruct (skip_spaces rest) eqn:Et; [|discriminate].
  intros H. injection H as <-.
  apply digits_run_sound in Er
    as [(_ & _ & Hk & _)|(body & Hb & _ & [Hbody|(_ & Hbody)])];
    [discriminate Hk| |rewrite Hbody in Eu; discriminate Eu].
  exists lead, sign, prefix, body, rest, v.
  split; [congruence|]. split; [assumption|].
  split; [now apply skip_spaces_empty|].
  split; [|split; assumption].
  destruct Hneg as [[-> ->]|[[-> ->]|[-> ->]]]; tauto.
Qed.


(** A literal has a digit, so it is not the empty string. *)
Lemma base16_literal_not_empty (s : string) (n : Z) :
  base16_literal s n -> s <> "".
Proof.
  intros Hn ->. apply py_int_base16_complete in Hn. discriminate Hn.
Qed.

(** ** Uniqueness of numerals *)

Lemma lower_hex_digit_code (c : ascii) (d : Z) :
  lower_hex_digit c = Some d ->
  0 <= d < 16 /\
  Z.of_N (N_of_ascii c) = if d <? 10 then d + 48 else d + 87.
Proof.
  unfold lower_hex_digit. intros H.
  destruct (_ && _) eqn:E1 in H;
    [|destruct (_ && _) eqn:E2 in H; [|discriminate]];
    injection H as <-;
    (split; [lia|]);
    match goal with |- _ = (if ?b then _ else _) => destruct b eqn:E end;
    lia.
Qed.

Lemma lower_hex_digit_inj (c c' : ascii) (d : Z) :
  lower_hex_digit c = Some d -> lower_hex_digit c' = Some d -> c = c'.
Proof.
  intros H H'.
  apply lower_hex_digit_code in H as [_ H], H' as [_ H'].
  rewrite <- H' in H. apply N2Z.inj in H.
  rewrite <- (ascii_N_embedding c), <- (ascii_N_embedding c').
  now f_equal.
Qed.

Lemma numeral_value_bounds (ds : string) : forall acc v,
  0 <= acc -> numeral_value acc ds = Some v ->
  acc * 16 ^ Z.of_nat (String.length ds) <= v
  < (acc + 1) * 16 ^ Z.of_nat (String.length ds).
Proof.
  induction ds as [|c ds IH]; intros acc v Hacc H; cbn [numeral_value] in H.
  - injection H as ->. cbn. lia.
  - destruct (lower_hex_digit c) as [d|] eqn:Hc; [|discriminate].
    apply lower_hex_digit_code in Hc as [Hd _].
    apply IH in H; [|lia].
    cbn [String.length]. rewrite Nat2Z.inj_succ, Z.pow_succ_r by lia.
    nia.
Qed.

(** Two runs of digits of one length with one value are the same run. *)
Lemma numeral_value_inj (ds : string) : forall ds' acc acc' v,
  String.length ds = String.length ds' ->
  numeral_value acc ds = Some v -> numeral_value acc' ds' = Some v ->
  acc = acc' /\ ds = ds'.
Proof.
  induction ds as [|c ds IH]; intros [|c' ds'] acc acc' v Hlen H H';
    try discriminate Hlen; cbn [numeral_value] in H, H'.
  - split; [congruence|reflexivity].
  - destruct (lower_hex_digit c) as [d|] eqn:Hc; [|discriminate].
    destruct (lower_hex_digit c') as [d'|] eqn:Hc'; [|discriminate].
    injection Hlen as Hlen.
    destruct (IH _ _ _ _ Hlen H H') as [Hacc ->].
    pose proof (lower_hex_digit_code _ _ Hc) as [Hd _].
    pose proof (lower_hex_digit_code _ _ Hc') as [Hd' _].
    assert (d = d') by lia. subst d'.
    split; [lia|]. f_equal. eapply lower_hex_digit_inj; eassumption.
Qed.

(** The length of a numeral without leading zeros follows from its
    value. *)
Lemma lower_hex_numeral_length (ds : string) (n : Z) :
  lower_hex_numeral ds n ->
  (n = 0 /\ ds = "0") \/
  16 ^ Z.of_nat (String.length ds - 1) <= n < 16 ^ Z.of_nat (String.length ds).
Proof.
  intros (Hne & Hval & Hzero). destruct ds as [|c ds]; [contradiction|].
  cbn [numeral_value] in Hval.
  destruct (lower_hex_digit c) as [d|] eqn:Hc; [|discriminate].
  pose proof (lower_hex_digit_code _ _ Hc) as [Hd _].
  assert (Hacc : 0 <= 16 * 0 + d) by lia.
  pose proof (numeral_value_bounds _ _ _ Hacc Hval) as Hb.
  assert (Hpow : 0 < 16 ^ Z.of_nat (String.length ds))
    by (apply Z.pow_pos_nonneg; lia).
  destruct (Z.eq_dec d 0) as [->|Hd0].
  - left. assert (c = "0"%char) by (eapply lower_hex_digit_inj; [eassumption|reflexivity]).
    subst c. rewrite (Hzero ds eq_refl) in *. cbn in Hval. split; congruence.
  - right. cbn [String.length]. rewrite Nat.sub_succ, Nat.sub_0_r.
    rewrite Nat2Z.inj_succ, Z.pow_succ_r by lia. nia.
Qed.

Lemma lower_hex_numeral_unique (ds ds' : string) (n : Z) :
  lower_hex_numeral ds n -> lower_hex_numeral ds' n -> ds = ds'.
Proof.
  intros H H'.
  destruct (lower_hex_numeral_length _ _ H) as [[Hn ->]|Hb];
    destruct (lower_hex_numeral_length _ _ H') as [[Hn' ->]|Hb'];
    try reflexivity.
  - exfalso. subst n. assert (0 < 16 ^ Z.of_nat (String.length ds' - 1))
      by (apply Z.pow_pos_nonneg; lia). lia.
  - exfalso. subst n. assert (0 < 16 ^ Z.of_nat (String.length ds - 1))
      by (apply Z.pow_pos_nonneg; lia). lia.
  - destruct H as (Hne & Hval & _), H' as (Hne' & Hval' & _).
    assert (Hlen : String.length ds = String.length ds').
    { destruct ds as [|c ds]; [contradiction|].
      destruct ds' as [|c' ds']; [contradiction|].
      cbn [String.length] in *. rewrite !Nat.sub_succ, !Nat.sub_0_r in *.
      rewrite !Nat2Z.inj_succ in *.
      destruct (Nat.lt_trichotomy (String.length ds) (String.length ds'))
        as [Hlt|[Heq|Hgt]]; [exfalso| now f_equal |exfalso].
      - assert (16 ^ Z.succ (Z.of_nat (String.length ds))
                <= 16 ^ Z.of_nat (String.length ds'))
          by (apply Z.pow_le_mono_r; lia). lia.
      - assert (16 ^ Z.succ (Z.of_nat (String.length ds'))
                <= 16 ^ Z.of_nat (String.length ds))
          by (apply Z.pow_le_mono_r; lia). lia. }
    exact (proj2 (numeral_value_inj _ _ _ _ _ Hlen Hval Hval')).
Qed.

(** ** [hex_block_number] *)

(** C3: for every non-negative [n], [hex_block_number] returns ["0x"]
    followed by the lowercase hexadecimal numeral of [n] without leading
    zeros, which is ["0x0"] for [n = 0]; for [None] it returns
    ["latest"]. *)
Theorem hex_block_number_numeral :
  hex_block_number None = Ok "latest" /\
  hex_block_number (Some 0) = Ok "0x0" /\
  forall n, 0 <= n ->
    exists ds,
      hex_block_number (Some n) = Ok ("0x" ++ ds)%string /\
      lower_hex_numeral ds n /\
      forall ds', lower_hex_numeral ds' n -> ds' = ds.
Proof.
  split; [reflexivity|]. split; [reflexivity|].
  intros n Hn. exists (hex_digits n). split; [|split].
  - unfold hex_block_number, py_hex.
    destruct (Z.ltb_spec n 0); [lia|reflexivity].
  - now apply hex_digits_numeral.
  - intros ds' H'. eapply lower_hex_numeral_unique; [eassumption|].
    now apply hex_digits_numeral.
Qed.

Lemma hex_block_number_numeral_witness :
  0 <= 21000000 /\
  exists ds,
    hex_block_number (Some 21000000) = Ok ("0x" ++ ds)%string /\
    lower_hex_numeral ds 21000000 /\
    forall ds', lower_hex_numeral ds' 21000000 -> ds' = ds.
Proof.
  split; [discriminate|].
  apply (proj2 (proj2 hex_block_number_numeral) 21000000). discriminate.
Defined.

Example hex_block_number_examples :
  map hex_block_number [None; Some 0; Some 255; Some 21000000; Some (-5)] =
  [Ok "latest"; Ok "0x0"; Ok "0xff"; Ok "0x1406f40";
   Raise (ValueError (Text "Block number cannot be negative"))].
Proof. reflexivity. Qed.

(** ** The RPC client *)

Section NetworkFacts.

Variable post : list rpc_request -> rpc_request -> post_outcome.

(** Every call posts its one request, whatever the outcome. *)
Lemma call_rpc_sent (method : string) (params : list json)
  (sent : list rpc_request) :
  fst (call_rpc post method params sent) = sent ++ [request_of method params].
Proof. reflexivity. Qed.

(** C4: for every negative block number, [fetch_block] raises the
    [ValueError] of [hex_block_number] and posts no request, and
    [get_block] answers 400, again without a request. *)
Theorem negative_block_number_rejected (n : Z) (sent : list rpc_request) :
  n < 0 ->
  let e := ValueError (Text "Block number cannot be negative") in
  kind_of e = InvalidArgument /\
  fetch_block post (Some n) sent = (sent, Raise e) /\
  get_block post (Some n) sent = (sent, HTTPException 400 (StrOf e)).
Proof.
  intros Hn e. split; [reflexivity|].
  unfold get_block, fetch_block, hex_block_number.
  destruct (Z.ltb_spec n 0); [|lia]. split; reflexivity.
Qed.

(** C6: when the call succeeds with a null or absent result,
    [fetch_block] raises the [RpcError] "No block found" and
    [get_block] answers 502. *)
Theorem null_result_not_found (number : option Z) (block_id : string)
  (sent : list rpc_request) :
  hex_block_number number = Ok block_id ->
  snd (call_rpc post "eth_getBlockByNumber" [JStr block_id; JBool true] sent)
  = Ok JNull ->
  let e := RpcError (NoBlockFoundFor block_id) in
  let sent' :=
    sent ++ [request_of "eth_getBlockByNumber" [JStr block_id; JBool true]] in
  kind_of e = NotFound /\
  fetch_block post number sent = (sent', Raise e) /\
  get_block post number sent = (sent', HTTPException 502 (StrOf e)).
Proof.
  intros Hid Hcall e sent'. split; [reflexivity|].
  unfold get_block, fetch_block. rewrite Hid.
  destruct (call_rpc post "eth_getBlockByNumber" [JStr block_id; JBool true] sent)
    as [sent0 r] eqn:Ecall.
  assert (Hsent : sent0 = sent')
    by (change sent0 with (fst (sent0, r)); rewrite <- Ecall; apply call_rpc_sent).
  cbn [snd] in Hcall. subst sent0 r. split; reflexivity.
Qed.

(** C5, amended: for every call that gets a response whose body is a
    JSON object, [call_rpc] raises the [RpcError] of the transport when
    the HTTP status is between 400 and 599, whatever the body holds;
    for any other status it raises the [RpcError] that carries the
    payload when the body has an [error] field, and returns the value
    of [result], [None] when absent, when it has none.  Either way
    the one request has been posted. *)
Theorem call_rpc_object (method : string) (params : list json)
  (sent : list rpc_request) (r : response) (fields : list (string * json)) :
  post sent (request_of method params) = PostReturns r ->
  body r = Some (JDict fields) ->
  call_rpc post method params sent =
  (sent ++ [request_of method params],
   if (400 <=? status_code r) && (status_code r <? 600)
   then Raise (RpcError (NetworkOrHttpError (HTTPError (status_code r))))
   else
     match dict_lookup fields "error" with
     | Some payload => Raise (RpcError (RpcErrorPayload payload))
     | None => Ok (field fields "result")
     end).
Proof.
  intros Hpost Hbody. unfold call_rpc. rewrite Hpost. f_equal.
  unfold raise_for_status, response_json.
  destruct ((400 <=? status_code r) && (status_code r <? 600));
    [reflexivity|].
  rewrite Hbody. unfold field. cbn.
  destruct (dict_lookup fields "error"); cbn; [reflexivity|].
  destruct (dict_lookup fields "result"); reflexivity.
Qed.

End NetworkFacts.

(** *** Sample calls *)

Lemma negative_block_number_rejected_witness :
  -5 < 0 /\
  get_block (node_replying null_reply) (Some (-5)) [] =
  ([], HTTPException 400
         (StrOf (ValueError (Text "Block number cannot be negative")))).
Proof.
  split; [reflexivity|].
  exact (proj2 (proj2 (negative_block_number_rejected
                         (node_replying null_reply) (-5) [] eq_refl))).
Defined.

Lemma null_result_not_found_witness :
  get_block (node_replying null_reply) (Some 99999999) [] =
  ([request_of "eth_getBlockByNumber" [JStr "0x5f5e0ff"; JBool true]],
   HTTPException 502 (StrOf (RpcError (NoBlockFoundFor "0x5f5e0ff")))).
Proof.
  exact (proj2 (proj2 (null_result_not_found
                         (node_replying null_reply) (Some 99999999)
                         "0x5f5e0ff" [] eq_refl eq_refl))).
Defined.

Lemma call_rpc_object_witness :
  call_rpc (node_replying (error_reply 200)) "eth_getBlockByNumber"
    [JStr "latest"; JBool true] [] =
  ([request_of "eth_getBlockByNumber" [JStr "latest"; JBool true]],
   Raise (RpcError (RpcErrorPayload rpc_error_payload))).
Proof.
  exact (call_rpc_object (node_replying (error_reply 200))
           "eth_getBlockByNumber" [JStr "latest"; JBool true] []
           (error_reply 200) _ eq_refl eq_refl).
Defined.

(** C5, as stated, fails: a body with an [error] field that comes with
    the HTTP status 500 makes [call_rpc] raise the [RpcError] of the
    transport, whose text is that of the HTTP error and not the
    payload. *)
Lemma error_body_with_status_500 :
  let r := error_reply 500 in
  body r = Some (JDict [("jsonrpc", JStr "2.0"); ("id", JInt 1);
                        ("error", rpc_error_payload)]) /\
  snd (call_rpc (node_replying r) "eth_getBlockByNumber"
         [JStr "latest"; JBool true] []) =
  Raise (RpcError (NetworkOrHttpError (HTTPError 500))) /\
  kind_of (RpcError (NetworkOrHttpError (HTTPError 500))) = TransportError /\
  snd (call_rpc (node_replying r) "eth_getBlockByNumber"
         [JStr "latest"; JBool true] []) <>
  Raise (RpcError (RpcErrorPayload rpc_error_payload)).
Proof.
  cbv zeta. split; [reflexivity|]. split; [reflexivity|].
  split; [reflexivity|]. cbn. discriminate.
Qed.

Example get_block_unreachable :
  get_block node_unreachable None [] =
  ([request_of "eth_getBlockByNumber" [JStr "latest"; JBool true]],
   HTTPException 502 (StrOf (RpcError (NetworkOrHttpError ConnectionError)))).
Proof. reflexivity. Qed.

(** ** [process_block] *)

Ltac bind_inv H :=
  match type of H with
  | bind ?r _ = Ok _ =>
      let E := fresh "E" in
      destruct r eqn:E; cbn [bind] in H; [|discriminate H]
  end.

Lemma py_get_dict (fields : list (string * json)) (key : string) :
  py_get (JDict fields) key = Ok (field fields key).
Proof.
  unfold py_get, py_get_default, field.
  destruct (dict_lookup fields key); reflexivity.
Qed.

Lemma counter_total_cons (k : json) (n : Z) (c : counter) :
  counter_total ((k, n) :: c) = n + counter_total c.
Proof. reflexivity. Qed.

Lemma counter_total_bump (c : counter) (key : json) :
  counter_total (counter_bump c key) = counter_total c + 1.
Proof.
  induction c as [|[k n] c IH]; cbn [counter_bump]; [reflexivity|].
  destruct (key_eqb k key); rewrite !counter_total_cons; lia.
Qed.

Lemma counter_increment_total (c c' : counter) (key : json) :
  counter_increment c key = Ok c' -> counter_total c' = counter_total c + 1.
Proof.
  unfold counter_increment. destruct (hashable key); [|discriminate].
  intros H. injection H as <-. apply counter_total_bump.
Qed.

(** One pass of the loop body adds one to the receivers and at most one
    to the senders. *)
Lemma tally_totals (senders receivers senders' receivers' : counter) (tx : json) :
  tally senders receivers tx = Ok (senders', receivers') ->
  counter_total receivers' = counter_total receivers + 1 /\
  counter_total senders <= counter_total senders' <= counter_total senders + 1.
Proof.
  unfold tally. intros H. do 4 bind_inv H. injection H as <- <-.
  split; [eapply counter_increment_total; eassumption|].
  destruct (truthy a).
  - match goal with
    | E : counter_increment senders _ = Ok _ |- _ =>
        apply counter_increment_total in E
    end. lia.
  - match goal with E : Ok _ = Ok _ |- _ => injection E as <- end. lia.
Qed.

Lemma tally_all_totals (txs : list json) :
  forall senders receivers senders' receivers',
  tally_all txs senders receivers = Ok (senders', receivers') ->
  counter_total receivers' = counter_total receivers + Z.of_nat (List.length txs) /\
  counter_total senders <= counter_total senders'
  <= counter_total senders + Z.of_nat (List.length txs).
Proof.
  induction txs as [|tx txs IH]; intros senders receivers senders' receivers' H.
  - injection H as <- <-. cbn. lia.
  - cbn [tally_all] in H. bind_inv H. destruct a as [s1 r1].
    apply tally_totals in E. apply IH in H.
    cbn [List.length]. lia.
Qed.

(** The loop visits as many items as [len] counts. *)
Lemma py_iter_len (txs : json) (n : Z) (items : list json) :
  py_len txs = Ok n -> py_iter txs = Ok items ->
  n = Z.of_nat (List.length items).
Proof.
  destruct txs; cbn; try discriminate; intros H1 H2;
    injection H1 as <-; injection H2 as <-.
  - induction s as [|c s IH]; cbn [String.length list_ascii_of_string map List.length];
      [reflexivity|]. rewrite !Nat2Z.inj_succ. now f_equal.
  - reflexivity.
  - now rewrite length_map.
Qed.

(** C10: in every summary that [process_block] produces, the counts of
    [by_receiver] add up to [total_transactions] and the counts of
    [by_sender] add up to at most [total_transactions]. *)
Theorem process_block_tallies (block : json) (s : summary) :
  process_block block = Ok s ->
  counter_total (by_receiver s) = total_transactions s /\
  counter_total (by_sender s) <= total_transactions s.
Proof.
  unfold process_block. intros H. do 4 bind_inv H.
  match goal with p : (counter * counter)%type |- _ => destruct p as [snd rcv] end.
  do 2 bind_inv H. injection H as <-. cbn [by_receiver by_sender total_transactions].
  match goal with
  | E1 : py_len _ = Ok _, E2 : py_iter _ = Ok _ |- _ =>
      rewrite (py_iter_len _ _ _ E1 E2)
  end.
  match goal with
  | E : tally_all _ _ _ = Ok _ |- _ => apply tally_all_totals in E; cbn in E
  end.
  lia.
Qed.

Lemma process_block_tallies_witness :
  process_block sample_block =
  Ok {| block_number := Some 21000000;
        block_hash := JStr "0xabc";
        total_transactions := 3;
        by_sender := [(JStr "A", 2); (JStr "C", 1)];
        by_receiver := [(JStr "B", 2); (JStr "null", 1)] |} /\
  counter_total [(JStr "B", 2); (JStr "null", 1)] = 3 /\
  counter_total [(JStr "A", 2); (JStr "C", 1)] <= 3.
Proof.
  split; [reflexivity|].
  exact (process_block_tallies sample_block
           {| block_number := Some 21000000;
              block_hash := JStr "0xabc";
              total_transactions := 3;
              by_sender := [(JStr "A", 2); (JStr "C", 1)];
              by_receiver := [(JStr "B", 2); (JStr "null", 1)] |}
           eq_refl).
Defined.

(** The loop body on a transaction that is a dict. *)
Lemma tally_dict (senders receivers : counter) (fields : list (string * json)) :
  tally senders receivers (JDict fields) =
  (senders' <- (if truthy (field fields "from")
                then counter_increment senders (field fields "from")
                else Ok senders) ;;
   receivers' <- counter_increment receivers
                   (receiver_key (field fields "to")) ;;
   Ok (senders', receivers')).
Proof. unfold tally. now rewrite !py_get_dict. Qed.

Lemma hashable_receiver_key (receiver : json) :
  hashable (receiver_key receiver) = hashable receiver.
Proof. destruct receiver; reflexivity. Qed.

(** The loop runs to its end on accepted transactions. *)
Lemma tally_all_returns (txs : list json) : forall senders receivers,
  forallb tx_ok txs = true ->
  exists senders' receivers',
    tally_all txs senders receivers = Ok (senders', receivers').
Proof.
  induction txs as [|tx txs IH]; intros senders receivers H.
  - now exists senders, receivers.
  - cbn [forallb] in H. apply andb_prop in H as [Htx Htxs].
    destruct tx as [| | | | |fields]; try discriminate Htx.
    cbn [tx_ok] in Htx. apply andb_prop in Htx as [Hfrom Hto].
    cbn [tally_all]. rewrite tally_dict. unfold counter_increment.
    rewrite hashable_receiver_key, Hto.
    destruct (truthy (field fields "from")); cbn in Hfrom |- *;
      [rewrite Hfrom; cbn|]; apply IH, Htxs.
Qed.

(** [process_block] returns a summary for every well-formed block. *)
Lemma process_block_returns (fields : list (string * json)) :
  block_ok fields = true -> exists s, process_block (JDict fields) = Ok s.
Proof.
  unfold block_ok. intros H. apply andb_prop in H as [Htxs Hnum].
  destruct (block_number_of (JDict fields)) as [number|] eqn:En;
    [|discriminate].
  unfold process_block. rewrite py_get_dict. cbn [py_get_default].
  destruct (dict_lookup fields "transactions") as [[| | | |txs|]|];
    try discriminate Htxs; cbn [bind py_len py_iter].
  - destruct (tally_all_returns txs [] [] Htxs) as (s & r & ->).
    cbn [bind]. rewrite En. cbn. eauto.
  - cbn. rewrite En. cbn. eauto.
Qed.

(** C1, as stated, fails: a transaction without [from] is counted in
    [by_receiver]. *)
Lemma absent_sender_still_received :
  process_block (JDict [("transactions", JList [JDict [("to", JStr "B")]])]) =
  Ok {| block_number := None;
        block_hash := JNull;
        total_transactions := 1;
        by_sender := [];
        by_receiver := [(JStr "B", 1)] |} /\
  ~ (forall fields senders receivers senders' receivers',
       truthy (field fields "from") = false ->
       tally senders receivers (JDict fields) = Ok (senders', receivers') ->
       senders' = senders /\ receivers' = receivers).
Proof.
  split; [reflexivity|]. intros H.
  destruct (H [("to", JStr "B")] [] [] [] [(JStr "B", 1)] eq_refl eq_refl)
    as [_ Hr].
  discriminate Hr.
Qed.


Lemma truthy_field_lookup (fields : list (string * json)) (key : string) :
  truthy (field fields key) = true ->
  dict_lookup fields key = Some (field fields key).
Proof.
  unfold field. destruct (dict_lookup fields key); [reflexivity|discriminate].
Qed.

(** The number of the summary, from the [number] field of the block. *)
Lemma block_number_of_dict (fields : list (string * json)) :
  block_number_of (JDict fields) =
  if truthy (field fields "number")
  then n <- py_int16 (field fields "number") ;; Ok (Some n)
  else Ok None.
Proof.
  unfold block_number_of. rewrite py_get_dict. cbn [bind].
  destruct (truthy (field fields "number")) eqn:E; [|reflexivity].
  unfold py_getitem. now rewrite (truthy_field_lookup _ _ E).
Qed.




(** A block with a malformed number reaches the caller as status 400. *)
Example get_block_malformed_number :
  snd (get_block
         (node_replying
            {| status_code := 200;
               body := Some (JDict [("result", JDict [("number", JStr "zz")])]) |})
         None []) =
  HTTPException 400 (StrOf (ValueError (InvalidLiteralBase16 "zz"))).
Proof. reflexivity. Qed.

(** What [process_block] does with values of other shapes. *)
Example process_block_shapes :
  (* the decoded result is not an object *)
  process_block (JList []) = Raise AttributeError /\
  (* "transactions": null *)
  process_block (JDict [("transactions", JNull)]) = Raise TypeError /\
  (* a transaction that is a hash string, not an object *)
  process_block (JDict [("transactions", JList [JStr "0xabc"])]) =
  Raise AttributeError /\
  (* "to" is a list *)
  process_block (JDict [("transactions", JList [JDict [("to", JList [])]])]) =
  Raise TypeError /\
  (* the keys true and 1 are one key *)
  process_block
    (JDict [("transactions",
             JList [JDict [("from", JBool true); ("to", JInt 0)];
                    JDict [("from", JInt 1); ("to", JBool false)]])]) =
  Ok {| block_number := None;
        block_hash := JNull;
        total_transactions := 2;
        by_sender := [(JBool true, 2)];
        by_receiver := [(JInt 0, 2)] |}.
Proof. repeat split. Qed.

(** The summary of a block whose transactions are the list [txs]. *)
Lemma process_block_list (fields : list (string * json)) (txs : list json) :
  py_get_default (JDict fields) "transactions" (JList []) = Ok (JList txs) ->
  process_block (JDict fields) =
  ('(senders, receivers) <- tally_all txs [] [] ;;
   number <- block_number_of (JDict fields) ;;
   Ok {| block_number := number;
         block_hash := field fields "hash";
         total_transactions := Z.of_nat (List.length txs);
         by_sender := senders;
         by_receiver := receivers |}).
Proof.
  intros H. unfold process_block. rewrite H. cbn [bind py_len py_iter].
  destruct (tally_all txs [] []) as [[senders receivers]|]; [|reflexivity].
  cbn [bind]. destruct (block_number_of (JDict fields)); [|reflexivity].
  cbn [bind]. now rewrite py_get_dict.
Qed.

(** C8: for every block whose transactions are
    [{from: A, to: B}, {from: A, to: null}, {from: C, to: B}],
    [process_block] returns [total_transactions = 3],
    [by_sender = {A: 2, C: 1}] and [by_receiver = {B: 2, null: 1}];
    the only other outcome is the exception of the [number] field. *)
Theorem process_block_three_transactions (fields : list (string * json)) :
  dict_lookup fields "transactions" = Some (JList three_transactions) ->
  process_block (JDict fields) =
  (number <- block_number_of (JDict fields) ;;
   Ok {| block_number := number;
         block_hash := field fields "hash";
         total_transactions := 3;
         by_sender := [(JStr "A", 2); (JStr "C", 1)];
         by_receiver := [(JStr "B", 2); (JStr "null", 1)] |}) /\
  (forall number, block_number_of (JDict fields) = Ok number ->
     process_block (JDict fields) =
     Ok {| block_number := number;
           block_hash := field fields "hash";
           total_transactions := 3;
           by_sender := [(JStr "A", 2); (JStr "C", 1)];
           by_receiver := [(JStr "B", 2); (JStr "null", 1)] |}).
Proof.
  intros Htxs.
  assert (H : py_get_default (JDict fields) "transactions" (JList []) =
              Ok (JList three_transactions))
    by (cbn [py_get_default]; now rewrite Htxs).
  rewrite (process_block_list fields three_transactions H).
  split; [reflexivity|]. intros number Hnum. cbn. now rewrite Hnum.
Qed.

Lemma process_block_three_transactions_witness :
  process_block sample_block =
  Ok {| block_number := Some 21000000;
        block_hash := JStr "0xabc";
        total_transactions := 3;
        by_sender := [(JStr "A", 2); (JStr "C", 1)];
        by_receiver := [(JStr "B", 2); (JStr "null", 1)] |}.
Proof.
  exact (proj2 (process_block_three_transactions
                  [("number", JStr "0x1406f40"); ("hash", JStr "0xabc");
                   ("transactions", JList three_transactions)] eq_refl)
           (Some 21000000) eq_refl).
Defined.

(** C9: for every block whose transaction list is empty and for every
    block without a [transactions] field, [process_block] returns
    [total_transactions = 0] and both maps empty; the only other outcome
    is the exception of the [number] field. *)
Theorem process_block_no_transactions (fields : list (string * json)) :
  dict_lookup fields "transactions" = None \/
  dict_lookup fields "transactions" = Some (JList []) ->
  process_block (JDict fields) =
  (number <- block_number_of (JDict fields) ;;
   Ok {| block_number := number;
         block_hash := field fields "hash";
         total_transactions := 0;
         by_sender := [];
         by_receiver := [] |}) /\
  (forall number, block_number_of (JDict fields) = Ok number ->
     process_block (JDict fields) =
     Ok {| block_number := number;
           block_hash := field fields "hash";
           total_transactions := 0;
           by_sender := [];
           by_receiver := [] |}).
Proof.
  intros Htxs.
  assert (H : py_get_default (JDict fields) "transactions" (JList []) =
              Ok (JList []))
    by (cbn [py_get_default]; destruct Htxs as [-> | ->]; reflexivity).
  rewrite (process_block_list fields [] H).
  split; [reflexivity|]. intros number Hnum. cbn. now rewrite Hnum.
Qed.

Lemma process_block_no_transactions_witness :
  process_block (JDict [("number", JStr "0x10"); ("hash", JStr "0xabc")]) =
  Ok {| block_number := Some 16;
        block_hash := JStr "0xabc";
        total_transactions := 0;
        by_sender := [];
        by_receiver := [] |} /\
  process_block (JDict [("transactions", JList [])]) =
  Ok {| block_number := None;
        block_hash := JNull;
        total_transactions := 0;
        by_sender := [];
        by_receiver := [] |}.
Proof.
  split.
  - exact (proj2 (process_block_no_transactions
                    [("number", JStr "0x10"); ("hash", JStr "0xabc")]
                    (or_introl eq_refl))
             (Some 16) eq_refl).
  - exact (proj2 (process_block_no_transactions
                    [("transactions", JList [])] (or_intror eq_refl))
             None eq_refl).
Defined.

(** * Further properties of the code *)

(** ** Counters *)

(** Two values are equal keys when they are the same key. *)
Lemma key_eqb_key_of (a b : json) :
  key_eqb a b = true <-> exists r, key_of a = Some r /\ key_of b = Some r.
Proof.
  destruct a as [|x|n|s|l|d], b as [|y|m|t|l'|d'];
    unfold key_eqb, key_of; split;
    try (intros H; discriminate H);
    try (intros (r & H1 & H2); congruence);
    try (intros H; apply Z.eqb_eq in H; subst; eauto);
    try (intros H; apply String.eqb_eq in H; subst; eauto);
    try (intros (r & H1 & H2); apply Z.eqb_eq; congruence);
    try (intros (r & H1 & H2); apply String.eqb_eq; congruence).
  - eauto.
  - intros H. apply Bool.eqb_prop in H. subst. eauto.
  - intros (r & H1 & H2). assert (Z.b2z x = Z.b2z y) by congruence.
    destruct x, y; try discriminate; reflexivity.
Qed.

(** Keys that are equal stand in the same relation to every key. *)
Lemma key_eqb_congr (k k' a : json) :
  key_eqb k k' = true -> key_eqb k a = key_eqb k' a.
Proof.
  intros H. apply key_eqb_key_of in H as (r & Hk & Hk').
  apply Bool.eq_true_iff_eq.
  split; intros Ha; apply key_eqb_key_of in Ha as (r' & H1 & H2);
    apply key_eqb_key_of; exists r'; split; congruence.
Qed.

Lemma key_eqb_left (k key a : json) :
  key_eqb k a = true -> key_eqb key a = true -> key_eqb k key = true.
Proof.
  intros H H'. apply key_eqb_key_of in H as (r & H1 & H2).
  apply key_eqb_key_of in H' as (r' & H3 & H4).
  apply key_eqb_key_of. exists r. split; congruence.
Qed.

Lemma counter_get_cons (k : json) (n : Z) (c : counter) (a : json) :
  counter_get ((k, n) :: c) a = if key_eqb k a then n else counter_get c a.
Proof. unfold counter_get. cbn. destruct (key_eqb k a); reflexivity. Qed.

(** An increment adds one to the count of its key and leaves the other
    counts alone. *)
Lemma counter_get_bump (c : counter) (key a : json) :
  counter_get (counter_bump c key) a =
  counter_get c a + (if key_eqb key a then 1 else 0).
Proof.
  induction c as [|[k n] c IH]; cbn [counter_bump].
  - rewrite counter_get_cons. unfold counter_get. cbn.
    destruct (key_eqb key a); reflexivity.
  - destruct (key_eqb k key) eqn:E.
    + rewrite !counter_get_cons, <- (key_eqb_congr _ _ a E).
      destruct (key_eqb k a); lia.
    + rewrite !counter_get_cons, IH.
      destruct (key_eqb k a) eqn:Ea; [|reflexivity].
      destruct (key_eqb key a) eqn:Eka; [|lia].
      rewrite (key_eqb_left _ _ _ Ea Eka) in E. discriminate E.
Qed.

(** ** The tallies of [process_block] *)

Lemma occurrences_cons (k : json) (keys : list json) (a : json) :
  occurrences (k :: keys) a =
  (if key_eqb k a then 1 else 0) + occurrences keys a.
Proof.
  unfold occurrences. cbn [filter].
  destruct (key_eqb k a); [cbn [List.length]|]; lia.
Qed.

(** A pass of the loop body that returns was given an accepted
    transaction, and did the two increments. *)
Lemma tally_inv (senders receivers senders' receivers' : counter) (tx : json) :
  tally senders receivers tx = Ok (senders', receivers') ->
  exists fields,
    tx = JDict fields /\ tx_ok tx = true /\
    senders' = (if truthy (field fields "from")
                then counter_bump senders (field fields "from")
                else senders) /\
    receivers' = counter_bump receivers (receiver_key (field fields "to")).
Proof.
  destruct tx as [| | | | |fields]; try discriminate.
  rewrite tally_dict. unfold counter_increment, tx_ok.
  rewrite hashable_receiver_key. intros H. exists fields.
  destruct (truthy (field fields "from"));
    [destruct (hashable (field fields "from")); [|discriminate H]|];
    (destruct (hashable (field fields "to")); [|discriminate H]);
    cbn in H; injection H as <- <-; repeat split.
Qed.

Lemma tally_all_inv (txs : list json) :
  forall senders receivers senders' receivers',
  tally_all txs senders receivers = Ok (senders', receivers') ->
  forallb tx_ok txs = true /\
  forall a,
    counter_get senders' a =
    counter_get senders a + occurrences (senders_of txs) a /\
    counter_get receivers' a =
    counter_get receivers a + occurrences (receivers_of txs) a.
Proof.
  induction txs as [|tx txs IH]; intros senders receivers senders' receivers' H.
  - injection H as <- <-. split; [reflexivity|]. intros a.
    unfold occurrences. cbn. lia.
  - cbn [tally_all] in H. bind_inv H. destruct a as [s1 r1].
    apply tally_inv in E as (fields & -> & Hok & -> & ->).
    apply IH in H as [Hall Hcount].
    split; [cbn [forallb]; now rewrite Hok|].
    intros a. destruct (Hcount a) as [Hs Hr]. rewrite Hs, Hr.
    cbn [senders_of receivers_of flat_map app].
    fold (senders_of txs). fold (receivers_of txs).
    rewrite occurrences_cons, counter_get_bump.
    destruct (truthy (field fields "from")); cbn [app];
      [rewrite occurrences_cons, counter_get_bump|]; lia.
Qed.

(** What a returned summary says about the block it was computed from. *)
Lemma process_block_inv (block : json) (s : summary) :
  process_block block = Ok s ->
  exists fields,
    block = JDict fields /\
    txs_ok (match dict_lookup fields "transactions" with
            | Some txs => txs
            | None => JList []
            end) = true /\
    tally_all (transactions_of block) [] [] = Ok (by_sender s, by_receiver s) /\
    total_transactions s = Z.of_nat (List.length (transactions_of block)) /\
    block_number_of block = Ok (block_number s) /\
    block_hash s = field fields "hash".
Proof.
  destruct block as [| | | | |fields]; try discriminate.
  unfold process_block. rewrite !py_get_dict. unfold py_get_default, transactions_of.
  intros H. exists fields. split; [reflexivity|].
  destruct (dict_lookup fields "transactions") as [txs|]; cbn [bind] in H.
  - destruct txs as [| | |str|txs|d]; try discriminate H;
      cbn [bind py_len py_iter] in H.
    + destruct str as [|c str]; [|discriminate H].
      cbn [list_ascii_of_string map tally_all bind] in H.
      bind_inv H. injection H as <-. cbn. repeat split; assumption.
    + destruct (tally_all txs [] []) as [[senders receivers]|] eqn:Et;
        [|discriminate H].
      cbn [bind] in H. bind_inv H. injection H as <-. cbn.
      split; [apply (tally_all_inv _ _ _ _ _ Et)|]. repeat split; assumption.
    + destruct d as [|[k v] d]; [|discriminate H].
      cbn [dict_keys map tally_all bind] in H.
      bind_inv H. injection H as <-. cbn. repeat split; assumption.
  - cbn [bind py_len py_iter tally_all] in H.
    bind_inv H. injection H as <-. cbn. repeat split; assumption.
Qed.

(** X1: in every summary that [process_block] returns, the count under
    a key in [by_sender] is the number of transactions whose [from] is
    not empty and equals the key, and the count under a key in
    [by_receiver] is the number of transactions whose receiver key
    (["null"] for an absent or null [to]) equals the key; a key that no
    transaction has counts 0. *)
Theorem process_block_counts (block : json) (s : summary) :
  process_block block = Ok s ->
  forall key,
    counter_get (by_sender s) key =
    occurrences (senders_of (transactions_of block)) key /\
    counter_get (by_receiver s) key =
    occurrences (receivers_of (transactions_of block)) key.
Proof.
  intros H key.
  apply process_block_inv in H as (fields & _ & _ & Ht & _).
  apply tally_all_inv in Ht as [_ Hcount].
  destruct (Hcount key) as [Hs Hr]. rewrite Hs, Hr.
  unfold counter_get. cbn. split; reflexivity.
Qed.

Lemma process_block_counts_witness :
  counter_get [(JStr "A", 2); (JStr "C", 1)] (JStr "A") = 2 /\
  counter_get [(JStr "B", 2); (JStr "null", 1)] (JStr "null") = 1.
Proof.
  pose proof (process_block_counts sample_block
                {| block_number := Some 21000000;
                   block_hash := JStr "0xabc";
                   total_transactions := 3;
                   by_sender := [(JStr "A", 2); (JStr "C", 1)];
                   by_receiver := [(JStr "B", 2); (JStr "null", 1)] |}
                eq_refl) as H.
  split; [exact (proj1 (H (JStr "A")))|exact (proj2 (H (JStr "null")))].
Defined.

Lemma forallb_bump (k key : json) (c : counter) :
  forallb (fun entry => negb (key_eqb k (fst entry))) c = true ->
  key_eqb k key = false ->
  forallb (fun entry => negb (key_eqb k (fst entry))) (counter_bump c key)
  = true.
Proof.
  intros Hc Hk. induction c as [|[k' n] c IH]; cbn [counter_bump].
  - cbn. now rewrite Hk.
  - cbn [forallb fst] in Hc. apply andb_prop in Hc as [Hk' Hc].
    destruct (key_eqb k' key); cbn [forallb fst]; rewrite Hk'; cbn [andb];
      [assumption|now apply IH].
Qed.

Lemma counter_wf_bump (c : counter) (key : json) :
  counter_wf c = true -> counter_wf (counter_bump c key) = true.
Proof.
  induction c as [|[k n] c IH]; intros H; cbn [counter_bump].
  - reflexivity.
  - cbn [counter_wf] in H. apply andb_prop in H as [H Hwf].
    apply andb_prop in H as [Hn Hk]. apply Z.leb_le in Hn.
    destruct (key_eqb k key) eqn:E; cbn [counter_wf].
    + rewrite Hk, Hwf. replace (1 <=? n + 1) with true; [reflexivity|].
      symmetry. apply Z.leb_le. lia.
    + rewrite (forallb_bump _ _ _ Hk E), (IH Hwf).
      replace (1 <=? n) with true; [reflexivity|].
      symmetry. now apply Z.leb_le.
Qed.

Lemma tally_all_wf (txs : list json) :
  forall senders receivers senders' receivers',
  tally_all txs senders receivers = Ok (senders', receivers') ->
  counter_wf senders = true -> counter_wf receivers = true ->
  counter_wf senders' = true /\ counter_wf receivers' = true.
Proof.
  induction txs as [|tx txs IH];
    intros senders receivers senders' receivers' H Hs Hr.
  - injection H as <- <-. now split.
  - cbn [tally_all] in H. bind_inv H. destruct a as [s1 r1].
    apply tally_inv in E as (fields & -> & _ & -> & ->).
    apply (IH _ _ _ _ H).
    + destruct (truthy (field fields "from"));
        [now apply counter_wf_bump|assumption].
    + now apply counter_wf_bump.
Qed.

(** X2: in every summary that [process_block] returns, [by_sender] and
    [by_receiver] list each key once and every count is at least 1. *)
Theorem process_block_maps_wf (block : json) (s : summary) :
  process_block block = Ok s ->
  counter_wf (by_sender s) = true /\ counter_wf (by_receiver s) = true.
Proof.
  intros H. apply process_block_inv in H as (fields & _ & _ & Ht & _).
  now apply (tally_all_wf _ _ _ _ _ Ht).
Qed.

Lemma process_block_maps_wf_witness :
  counter_wf [(JStr "A", 2); (JStr "C", 1)] = true /\
  counter_wf [(JStr "B", 2); (JStr "null", 1)] = true.
Proof.
  exact (process_block_maps_wf sample_block
           {| block_number := Some 21000000;
              block_hash := JStr "0xabc";
              total_transactions := 3;
              by_sender := [(JStr "A", 2); (JStr "C", 1)];
              by_receiver := [(JStr "B", 2); (JStr "null", 1)] |}
           eq_refl).
Defined.

Lemma occurrences_app (keys keys' : list json) (a : json) :
  occurrences (keys ++ keys') a = occurrences keys a + occurrences keys' a.
Proof.
  unfold occurrences. rewrite filter_app, length_app. lia.
Qed.

(** The tallies that the loop leaves are the increments for the senders
    and for the receiver keys of the transactions, in their order. *)
Lemma tally_all_fold (txs : list json) :
  forall senders receivers senders' receivers',
  tally_all txs senders receivers = Ok (senders', receivers') ->
  senders' = fold_left counter_bump (senders_of txs) senders /\
  receivers' = fold_left counter_bump (receivers_of txs) receivers.
Proof.
  induction txs as [|tx txs IH]; intros senders receivers senders' receivers' H.
  - injection H as <- <-. now split.
  - cbn [tally_all] in H. bind_inv H. destruct a as [s1 r1].
    apply tally_inv in E as (fields & -> & _ & -> & ->).
    apply IH in H as [-> ->].
    cbn [senders_of receivers_of flat_map].
    fold (senders_of txs). fold (receivers_of txs).
    rewrite !fold_left_app.
    destruct (truthy (field fields "from")); now split.
Qed.

(** C1, amended: for every block and every transaction in it whose
    [from] is absent or empty: in the summary that [process_block]
    returns, [by_sender] is what it is for the block without that
    transaction, [by_receiver] counts one more under the receiver key of
    the transaction (["null"] when [to] is absent or null, the value of
    [to] otherwise) and the same under every other key, and
    [total_transactions] is one more.  [process_block] returns a summary
    for the block when it returns one for the block without the
    transaction and [to] can be hashed; when [to] is a list or a dict
    it raises. *)
Theorem process_block_without_sender (fields : list (string * json))
  (pre post : list json) (tx : list (string * json)) :
  dict_lookup fields "transactions" = Some (JList (pre ++ JDict tx :: post)) ->
  truthy (field tx "from") = false ->
  let without := JDict (("transactions", JList (pre ++ post)) :: fields) in
  let key := match field tx "to" with
             | JNull => JStr "null"
             | receiver => receiver
             end in
  (forall s, process_block (JDict fields) = Ok s ->
     exists s0,
       process_block without = Ok s0 /\
       by_sender s = by_sender s0 /\
       total_transactions s = total_transactions s0 + 1 /\
       counter_get (by_receiver s) key = counter_get (by_receiver s0) key + 1 /\
       forall other, key_eqb key other = false ->
         counter_get (by_receiver s) other = counter_get (by_receiver s0) other) /\
  (forall s0, process_block without = Ok s0 ->
     hashable (field tx "to") = true ->
     exists s, process_block (JDict fields) = Ok s) /\
  (hashable (field tx "to") = false ->
     forall s, process_block (JDict fields) <> Ok s).
Proof.
  intros Htxs Hfrom without key.
  assert (Hkey : key = receiver_key (field tx "to"))
    by (unfold key, receiver_key; now destruct (field tx "to")).
  assert (Hbig : py_get_default (JDict fields) "transactions" (JList []) =
                 Ok (JList (pre ++ JDict tx :: post)))
    by (cbn [py_get_default]; now rewrite Htxs).
  assert (Hsmall : py_get_default without "transactions" (JList []) =
                   Ok (JList (pre ++ post))) by reflexivity.
  assert (Hnum : block_number_of without = block_number_of (JDict fields))
    by (unfold without; now rewrite !block_number_of_dict).
  pose proof (process_block_list _ _ Hbig) as Ebig.
  pose proof (process_block_list _ _ Hsmall) as Esmall.
  fold without in Esmall. rewrite Hnum in Esmall.
  assert (Hsenders : senders_of (pre ++ JDict tx :: post) = senders_of (pre ++ post)).
  { unfold senders_of. rewrite !flat_map_app. cbn [flat_map].
    now rewrite Hfrom. }
  assert (Hreceivers : receivers_of (pre ++ JDict tx :: post) =
                       receivers_of pre ++ key :: receivers_of post).
  { unfold receivers_of. rewrite flat_map_app. cbn [flat_map app].
    now rewrite Hkey. }
  assert (Hreceivers0 : receivers_of (pre ++ post) =
                        receivers_of pre ++ receivers_of post)
    by (unfold receivers_of; apply flat_map_app).
  split; [|split].
  - intros s Hs. rewrite Ebig in Hs.
    destruct (tally_all (pre ++ JDict tx :: post) [] [])
      as [[senders receivers]|] eqn:Et; [|discriminate Hs].
    cbn [bind] in Hs.
    destruct (block_number_of (JDict fields)) as [number|]; [|discriminate Hs].
    injection Hs as <-. cbn [by_sender by_receiver total_transactions].
    pose proof (tally_all_inv _ _ _ _ _ Et) as [Hok Hcount].
    rewrite forallb_app in Hok. apply andb_prop in Hok as [Hpre Hpost].
    cbn [forallb] in Hpost. apply andb_prop in Hpost as [Htx Hpost].
    assert (Hok0 : forallb tx_ok (pre ++ post) = true)
      by (rewrite forallb_app, Hpre, Hpost; reflexivity).
    destruct (tally_all_returns _ [] [] Hok0) as (senders0 & receivers0 & Et0).
    rewrite Esmall, Et0. cbn [bind]. eexists. split; [reflexivity|].
    cbn [by_sender by_receiver total_transactions].
    pose proof (tally_all_inv _ _ _ _ _ Et0) as [_ Hcount0].
    apply tally_all_fold in Et as [-> _].
    apply tally_all_fold in Et0 as [-> _].
    assert (Hself : key_eqb key key = true).
    { cbn [tx_ok] in Htx. apply andb_prop in Htx as [_ Hto].
      rewrite <- hashable_receiver_key, <- Hkey in Hto.
      apply key_eqb_key_of. destruct key; try discriminate Hto; cbn; eauto. }
    split; [now rewrite Hsenders|]. split.
    + rewrite !length_app. cbn [List.length]. lia.
    + split; [|intros other Hother];
        [destruct (Hcount key) as [_ ->]|destruct (Hcount other) as [_ ->]];
        [destruct (Hcount0 key) as [_ ->]|destruct (Hcount0 other) as [_ ->]];
        rewrite Hreceivers, Hreceivers0, !occurrences_app, occurrences_cons;
        [rewrite Hself|rewrite Hother]; lia.
  - intros s0 Hs0 Hto. rewrite Esmall in Hs0. rewrite Ebig.
    destruct (tally_all (pre ++ post) [] [])
      as [[senders0 receivers0]|] eqn:Et0; [|discriminate Hs0].
    cbn [bind] in Hs0.
    destruct (block_number_of (JDict fields)) as [number|]; [|discriminate Hs0].
    apply tally_all_inv in Et0 as [Hok0 _].
    rewrite forallb_app in Hok0. apply andb_prop in Hok0 as [Hpre Hpost].
    assert (Hok : forallb tx_ok (pre ++ JDict tx :: post) = true).
    { rewrite forallb_app, Hpre. cbn [forallb tx_ok andb].
      now rewrite Hfrom, Hto, Hpost. }
    destruct (tally_all_returns _ [] [] Hok) as (senders & receivers & ->).
    cbn. eauto.
  - intros Hto s Hs. rewrite Ebig in Hs.
    destruct (tally_all (pre ++ JDict tx :: post) [] [])
      as [[senders receivers]|] eqn:Et; [|discriminate Hs].
    apply tally_all_inv in Et as [Hok _].
    rewrite forallb_app in Hok. apply andb_prop in Hok as [_ Hpost].
    cbn [forallb tx_ok] in Hpost. rewrite Hto, andb_false_r in Hpost.
    discriminate Hpost.
Qed.

Lemma process_block_without_sender_witness :
  exists s0,
    process_block
      (JDict [("transactions", JList [JDict [("from", JStr "A"); ("to", JStr "B")]]);
              ("number", JStr "0x10");
              ("transactions",
               JList [JDict [("from", JStr "A"); ("to", JStr "B")];
                      JDict [("from", JStr ""); ("to", JStr "B")]])]) = Ok s0 /\
    by_sender s0 = [(JStr "A", 1)] /\
    total_transactions s0 + 1 = 2 /\
    counter_get (by_receiver s0) (JStr "B") + 1 = 2.
Proof.
  destruct (process_block_without_sender
              [("number", JStr "0x10");
               ("transactions",
                JList [JDict [("from", JStr "A"); ("to", JStr "B")];
                       JDict [("from", JStr ""); ("to", JStr "B")]])]
              [JDict [("from", JStr "A"); ("to", JStr "B")]] []
              [("from", JStr ""); ("to", JStr "B")]
              eq_refl eq_refl) as [Hsame _].
  destruct (Hsame _ eq_refl) as (s0 & Hs0 & Hsenders & Htotal & Hcount & _).
  exists s0. split; [exact Hs0|].
  split; [etransitivity; [symmetry; exact Hsenders|reflexivity]|].
  split; (etransitivity; [symmetry|reflexivity]); [exact Htotal|exact Hcount].
Defined.

Lemma truthy_empty (v : json) : truthy v = false <-> empty_value v.
Proof.
  unfold empty_value. destruct v as [|[]|n|s|[|x l]|[|x d]]; cbn [truthy];
    split; intros H; try reflexivity; try discriminate H; try tauto;
    try (repeat destruct H as [H|H]; discriminate H).
  - apply negb_false_iff, Z.eqb_eq in H. subst. tauto.
  - apply negb_false_iff, Z.eqb_eq. repeat destruct H as [H|H]; congruence.
  - apply negb_false_iff, String.eqb_eq in H. subst. tauto.
  - apply negb_false_iff, String.eqb_eq.
    repeat destruct H as [H|H]; congruence.
Qed.

(** The [number] fields for which the number of the summary is
    computed. *)
Lemma block_number_of_returns (fields : list (string * json)) :
  (exists number, block_number_of (JDict fields) = Ok number) <->
  (dict_lookup fields "number" = None \/
   (exists number,
      dict_lookup fields "number" = Some number /\ empty_value number) \/
   (exists s n,
      dict_lookup fields "number" = Some (JStr s) /\ base16_literal s n)).
Proof.
  rewrite block_number_of_dict. unfold field.
  destruct (dict_lookup fields "number") as [number|]; cbn [truthy]; split.
  - intros [r H]. right. destruct (truthy number) eqn:Et.
    + right. destruct number as [| | |s| |]; try discriminate H.
      cbn [py_int16] in H.
      destruct (py_int_base16 s) as [n|] eqn:E; [|discriminate H].
      exists s, n. split; [reflexivity|now apply py_int_base16_sound].
    + left. exists number. split; [reflexivity|now apply truthy_empty].
  - intros [H|[(number' & H & He)|(s & n & H & Hn)]]; [discriminate H| |].
    + injection H as <-. apply truthy_empty in He. rewrite He. eauto.
    + injection H as ->. cbn [truthy py_int16].
      destruct (String.eqb_spec s "") as [->|_];
        [now apply base16_literal_not_empty in Hn|].
      cbn [negb]. apply py_int_base16_complete in Hn. rewrite Hn.
      cbn. eauto.
  - eauto.
  - eauto.
Qed.

(** X3: [process_block] returns a summary exactly for the accepted
    blocks: a dict whose [transactions], when present, is a list of
    dicts whose non-empty [from] and whose [to] can be hashed (or a
    string or dict with nothing in it), and whose [number] is absent,
    empty or a string that is a base-16 literal.  On every other value
    it raises. *)
Theorem process_block_returns_iff (block : json) :
  (exists s, process_block block = Ok s) <-> block_accepted block.
Proof.
  split.
  - intros [s H].
    apply process_block_inv in H as (fields & -> & Htxs & _ & _ & Hn & _).
    exists fields. split; [reflexivity|]. split; [assumption|].
    apply block_number_of_returns. eauto.
  - intros (fields & -> & Htxs & Hnum).
    apply block_number_of_returns in Hnum as [number En].
    unfold process_block. rewrite py_get_dict.
    unfold py_get_default.
    destruct (dict_lookup fields "transactions") as [txs|]; cbn [bind].
    + destruct txs as [| | |str|txs|d]; try discriminate Htxs;
        cbn [bind py_len py_iter].
      * cbn [txs_ok] in Htxs. apply String.eqb_eq in Htxs. subst str.
        cbn. rewrite En. cbn. eauto.
      * destruct (tally_all_returns txs [] [] Htxs) as (senders & receivers & ->).
        cbn [bind]. rewrite En. cbn. eauto.
      * destruct d; [|discriminate Htxs]. cbn. rewrite En. cbn. eauto.
    + cbn. rewrite En. cbn. eauto.
Qed.

Lemma process_block_returns_iff_witness :
  (exists s, process_block sample_block = Ok s) /\
  block_accepted (JDict [("number", JStr ""); ("transactions", JList [])]).
Proof.
  split.
  - apply (proj2 (process_block_returns_iff sample_block)).
    exists [("number", JStr "0x1406f40"); ("hash", JStr "0xabc");
            ("transactions", JList three_transactions)].
    split; [reflexivity|]. split; [reflexivity|].
    right. right. exists "0x1406f40", 21000000.
    split; [reflexivity|].
    exact (py_int_base16_sound "0x1406f40" 21000000 eq_refl).
  - apply (proj1 (process_block_returns_iff
                    (JDict [("number", JStr ""); ("transactions", JList [])]))).
    eexists. reflexivity.
Defined.

(** X4: [process_block] reads the fields [transactions], [number] and
    [hash] of the block and no other: two blocks that agree on the three
    have the same outcome. *)
Theorem process_block_frame (fields fields' : list (string * json)) :
  dict_lookup fields "transactions" = dict_lookup fields' "transactions" ->
  dict_lookup fields "number" = dict_lookup fields' "number" ->
  dict_lookup fields "hash" = dict_lookup fields' "hash" ->
  process_block (JDict fields) = process_block (JDict fields').
Proof.
  intros Ht Hn Hh.
  unfold process_block, block_number_of, py_get, py_get_default, py_getitem.
  now rewrite Ht, Hn, Hh.
Qed.

Lemma process_block_frame_witness :
  process_block
    (JDict [("miner", JStr "0xfee"); ("number", JStr "0x1406f40");
            ("hash", JStr "0xabc"); ("gasUsed", JStr "0x5208");
            ("transactions", JList three_transactions)]) =
  process_block sample_block.
Proof.
  exact (process_block_frame
           [("miner", JStr "0xfee"); ("number", JStr "0x1406f40");
            ("hash", JStr "0xabc"); ("gasUsed", JStr "0x5208");
            ("transactions", JList three_transactions)]
           [("number", JStr "0x1406f40"); ("hash", JStr "0xabc");
            ("transactions", JList three_transactions)]
           eq_refl eq_refl eq_refl).
Defined.

(** X5: the loop reads the fields [from] and [to] of a transaction and
    no other, and takes an absent field for a null one: two lists of
    transactions that agree on the two fields, item by item, leave the
    same tallies. *)
Theorem tally_all_frame (txs txs' : list json) :
  Forall2 tx_same txs txs' ->
  forall senders receivers,
    tally_all txs senders receivers = tally_all txs' senders receivers.
Proof.
  induction 1 as [|tx tx' txs txs' Hsame _ IH]; intros senders receivers;
    [reflexivity|].
  cbn [tally_all].
  assert (Ht : tally senders receivers tx = tally senders receivers tx').
  { destruct tx as [| | | | |fields], tx' as [| | | | |fields'];
      cbn [tx_same] in Hsame; try discriminate Hsame; try reflexivity;
      try (now rewrite Hsame).
    destruct Hsame as [Hfrom Hto]. now rewrite !tally_dict, Hfrom, Hto. }
  rewrite Ht. destruct (tally senders receivers tx') as [[s1 r1]|];
    [apply IH|reflexivity].
Qed.

Lemma tally_all_frame_witness :
  tally_all [JDict [("from", JStr "A"); ("value", JStr "0x1")]] [] [] =
  tally_all [JDict [("to", JNull); ("from", JStr "A")]] [] [].
Proof.
  apply (tally_all_frame
           [JDict [("from", JStr "A"); ("value", JStr "0x1")]]
           [JDict [("to", JNull); ("from", JStr "A")]]).
  constructor; [split; reflexivity|constructor].
Defined.

(** ** Block identifiers *)

Lemma py_hex_not_empty (n : Z) : py_hex n <> "".
Proof. unfold py_hex. destruct (n <? 0); discriminate. Qed.

(** X6: the identifier that [hex_block_number] gives for a block number
    reads back as that number: a block whose [number] field is the
    identifier gets [block_number = n] from [process_block]'s
    computation. *)
Theorem hex_block_number_round_trip (n : Z) (block_id : string)
  (fields : list (string * json)) :
  hex_block_number (Some n) = Ok block_id ->
  dict_lookup fields "number" = Some (JStr block_id) ->
  block_number_of (JDict fields) = Ok (Some n).
Proof.
  unfold hex_block_number. destruct (n <? 0); [discriminate|].
  intros H Hf. injection H as <-.
  rewrite block_number_of_dict. unfold field. rewrite Hf.
  cbn [truthy py_int16].
  destruct (String.eqb_spec (py_hex n) ""); [now apply py_hex_not_empty in e|].
  cbn [negb]. now rewrite py_int_base16_hex.
Qed.

Lemma hex_block_number_round_trip_witness :
  block_number_of sample_block = Ok (Some 21000000).
Proof.
  exact (hex_block_number_round_trip 21000000 "0x1406f40"
           [("number", JStr "0x1406f40"); ("hash", JStr "0xabc");
            ("transactions", JList three_transactions)]
           eq_refl eq_refl).
Defined.

(** X7: [hex_block_number] gives different identifiers to different
    arguments: two block numbers never share an identifier, and no
    block number gets the identifier ["latest"] of the absent
    argument. *)
Theorem hex_block_number_injective (a b : option Z) (block_id : string) :
  hex_block_number a = Ok block_id ->
  hex_block_number b = Ok block_id ->
  a = b.
Proof.
  unfold hex_block_number.
  destruct a as [n|], b as [m|]; try reflexivity;
    repeat match goal with
           | |- context [if ?c then _ else _] => destruct c; try discriminate
           end;
    intros Ha Hb; injection Ha as <-; injection Hb as Hb.
  - f_equal. pose proof (py_int_base16_hex m) as Hm.
    rewrite Hb, py_int_base16_hex in Hm. congruence.
  - pose proof (py_int_base16_hex n) as Hn. rewrite <- Hb in Hn.
    discriminate Hn.
  - pose proof (py_int_base16_hex m) as Hm. rewrite Hb in Hm.
    discriminate Hm.
Qed.

Lemma hex_block_number_injective_witness : Some 255 = Some 255.
Proof.
  exact (hex_block_number_injective (Some 255) (Some 255) "0xff"
           eq_refl eq_refl).
Defined.

(** ** The handler and the node *)

Section HandlerFacts.

Variable post : list rpc_request -> rpc_request -> post_outcome.

(** The handler answers an exception with an error response. *)
Lemma http_exception_not_200 (e : exn) (s : summary) :
  (if isinstance_RpcError e then HTTPException 502 (StrOf e)
   else if isinstance_ValueError e then HTTPException 400 (StrOf e)
   else HTTPException 500 (UnexpectedServerError e)) <> Return200 s.
Proof.
  destruct (isinstance_RpcError e); [discriminate|].
  destruct (isinstance_ValueError e); discriminate.
Qed.

(** X8: one request to [/block] posts exactly one request to the node,
    an [eth_getBlockByNumber] for the identifier of the block number
    with the flag for full transactions, whatever the node answers; a
    negative block number posts none.  Nothing is posted a second
    time. *)
Theorem get_block_posts_once (number : option Z) (sent : list rpc_request) :
  fst (get_block post number sent) =
  match hex_block_number number with
  | Ok block_id => sent ++ [block_request block_id]
  | Raise _ => sent
  end /\
  fst (fetch_block post number sent) = fst (get_block post number sent).
Proof.
  unfold get_block, fetch_block.
  destruct (hex_block_number number) as [block_id|e]; split; reflexivity.
Qed.

(** X9: when the post itself fails (no connection, a timeout),
    [fetch_block] raises the [RpcError] that wraps the failure and
    [get_block] answers 502 with it, after the one request. *)
Theorem transport_exception_502 (number : option Z) (block_id : string)
  (sent : list rpc_request) (e : request_exception) :
  hex_block_number number = Ok block_id ->
  post sent (block_request block_id) = PostRaises e ->
  fetch_block post number sent =
  (sent ++ [block_request block_id],
   Raise (RpcError (NetworkOrHttpError e))) /\
  get_block post number sent =
  (sent ++ [block_request block_id],
   HTTPException 502 (StrOf (RpcError (NetworkOrHttpError e)))).
Proof.
  intros Hid Hpost. unfold get_block, fetch_block, call_rpc.
  fold (block_request block_id). rewrite Hid.
  change (request_of "eth_getBlockByNumber" [JStr block_id; JBool true])
    with (block_request block_id).
  rewrite Hpost. split; reflexivity.
Qed.

(** X10: when the node answers with an HTTP status from 400 to 599,
    [get_block] answers 502 with the HTTP error, whatever the body is:
    the body is not decoded. *)
Theorem http_error_status_502 (number : option Z) (block_id : string)
  (sent : list rpc_request) (r : response) :
  hex_block_number number = Ok block_id ->
  post sent (block_request block_id) = PostReturns r ->
  400 <= status_code r < 600 ->
  get_block post number sent =
  (sent ++ [block_request block_id],
   HTTPException 502
     (StrOf (RpcError (NetworkOrHttpError (HTTPError (status_code r)))))).
Proof.
  intros Hid Hpost Hst. unfold get_block, fetch_block, call_rpc.
  rewrite Hid.
  change (request_of "eth_getBlockByNumber" [JStr block_id; JBool true])
    with (block_request block_id).
  rewrite Hpost. unfold raise_for_status.
  replace ((400 <=? status_code r) && (status_code r <? 600)) with true;
    [reflexivity|].
  symmetry. apply andb_true_intro. split; [apply Z.leb_le|apply Z.ltb_lt]; lia.
Qed.

(** X11: when the node answers with another status and a body that is
    not JSON, the [JSONDecodeError] of [response.json()] is outside the
    [try] of [call_rpc]; it is a [ValueError], so [get_block] answers
    400. *)
Theorem undecodable_body_400 (number : option Z) (block_id : string)
  (sent : list rpc_request) (r : response) :
  hex_block_number number = Ok block_id ->
  post sent (block_request block_id) = PostReturns r ->
  raise_for_status r = None ->
  body r = None ->
  get_block post number sent =
  (sent ++ [block_request block_id],
   HTTPException 400 (StrOf JSONDecodeError)).
Proof.
  intros Hid Hpost Hst Hbody. unfold get_block, fetch_block, call_rpc.
  rewrite Hid.
  change (request_of "eth_getBlockByNumber" [JStr block_id; JBool true])
    with (block_request block_id).
  rewrite Hpost, Hst. unfold response_json. rewrite Hbody. reflexivity.
Qed.

(** X12: when the body is JSON but not an object, [call_rpc] raises
    [TypeError] or [AttributeError] (from ["error" in data],
    [data['error']] or [data.get]) and [get_block] answers 500 under
    the generic heading. *)
Theorem non_object_body_500 (number : option Z) (block_id : string)
  (sent : list rpc_request) (r : response) (data : json) :
  hex_block_number number = Ok block_id ->
  post sent (block_request block_id) = PostReturns r ->
  raise_for_status r = None ->
  body r = Some data ->
  (forall fields, data <> JDict fields) ->
  exists e,
    (e = TypeError \/ e = AttributeError) /\
    get_block post number sent =
    (sent ++ [block_request block_id],
     HTTPException 500 (UnexpectedServerError e)).
Proof.
  intros Hid Hpost Hst Hbody Hdata. unfold get_block, fetch_block, call_rpc.
  rewrite Hid.
  change (request_of "eth_getBlockByNumber" [JStr block_id; JBool true])
    with (block_request block_id).
  rewrite Hpost, Hst. unfold response_json. rewrite Hbody.
  destruct data as [| | |str|items|fields]; cbn [bind py_in];
    try (exists TypeError; split; [now left|reflexivity]).
  - destruct (contains "error" str);
      [exists TypeError; split; [now left|reflexivity]
      |exists AttributeError; split; [now right|reflexivity]].
  - destruct (existsb _ items);
      [exists TypeError; split; [now left|reflexivity]
      |exists AttributeError; split; [now right|reflexivity]].
  - now destruct (Hdata fields).
Qed.

(** A call returns a value only from an object body without [error],
    and the value is the [result] field. *)
Lemma call_rpc_ok_inv (method : string) (params : list json)
  (sent : list rpc_request) (v : json) :
  snd (call_rpc post method params sent) = Ok v ->
  exists r fields,
    post sent (request_of method params) = PostReturns r /\
    raise_for_status r = None /\
    body r = Some (JDict fields) /\
    dict_lookup fields "error" = None /\
    v = field fields "result".
Proof.
  unfold call_rpc. cbn [snd].
  destruct (post sent (request_of method params)) as [e|r]; [discriminate|].
  destruct (raise_for_status r) eqn:Est; [discriminate|].
  unfold response_json. destruct (body r) as [data|] eqn:Eb; [|discriminate].
  cbn [bind]. intros H. exists r.
  destruct data as [| | |str|items|fields]; cbn [bind py_in] in H;
    try discriminate H.
  - destruct (contains "error" str); discriminate H.
  - destruct (existsb _ items); discriminate H.
  - exists fields. destruct (dict_lookup fields "error") eqn:Ee.
    + cbn in H. rewrite Ee in H. discriminate H.
    + rewrite py_get_dict in H. injection H as <-.
      repeat split; try assumption; reflexivity.
Qed.

(** X13: [get_block] answers 200 with a summary exactly when the block
    number is absent or not negative, the node answers the one request
    with a status outside 400..599 and an object body that has no
    [error] field and a [result] that is not null, and [process_block]
    returns the summary for that result. *)
Theorem get_block_200_iff (number : option Z) (sent : list rpc_request)
  (s : summary) :
  snd (get_block post number sent) = Return200 s <->
  exists block_id r fields block,
    hex_block_number number = Ok block_id /\
    post sent (block_request block_id) = PostReturns r /\
    raise_for_status r = None /\
    body r = Some (JDict fields) /\
    dict_lookup fields "error" = None /\
    dict_lookup fields "result" = Some block /\
    block <> JNull /\
    process_block block = Ok s.
Proof.
  unfold get_block, fetch_block. split.
  - destruct (hex_block_number number) as [block_id|e] eqn:Hid.
    2: { cbn [snd bind]. intros H. now apply http_exception_not_200 in H. }
    destruct (call_rpc post "eth_getBlockByNumber"
                [JStr block_id; JBool true] sent) as [sent' res] eqn:Ec.
    cbn [snd]. destruct res as [v|e].
    2: { cbn [bind]. intros H. now apply http_exception_not_200 in H. }
    pose proof (call_rpc_ok_inv "eth_getBlockByNumber"
                  [JStr block_id; JBool true] sent v) as Hinv.
    rewrite Ec in Hinv.
    destruct (Hinv eq_refl) as (r & fields & Hp & Hst & Hb & He & Hv).
    destruct v eqn:Ev; cbn [bind];
      [ intros H; now apply http_exception_not_200 in H | ..];
      (destruct (process_block _) as [s'|e'] eqn:Ep;
       [|intros H; now apply http_exception_not_200 in H];
       intros H; injection H as ->;
       exists block_id, r, fields;
       match goal with Ep : process_block ?b = Ok _ |- _ => exists b end;
       (split; [reflexivity|]); (split; [exact Hp|]); (split; [exact Hst|]);
       (split; [exact Hb|]); (split; [exact He|]);
       (split; [|split; [|exact Ep]]);
       [ unfold field in Hv; destruct (dict_lookup fields "result");
         [congruence|discriminate]
       | discriminate ]).
  - intros (block_id & r & fields & block & Hid & Hp & Hst & Hb & He & Hr
            & Hnn & Hs).
    rewrite Hid. unfold call_rpc.
    change (request_of "eth_getBlockByNumber" [JStr block_id; JBool true])
      with (block_request block_id).
    rewrite Hp, Hst. unfold response_json. rewrite Hb.
    cbn [bind py_in snd]. rewrite He. rewrite py_get_dict.
    unfold field. rewrite Hr. cbn [bind].
    destruct block; try contradiction; cbn [bind]; now rewrite Hs.
Qed.

End HandlerFacts.

Lemma transport_exception_502_witness :
  get_block node_timing_out None [] =
  ([block_request "latest"],
   HTTPException 502 (StrOf (RpcError (NetworkOrHttpError Timeout)))).
Proof.
  exact (proj2 (transport_exception_502 node_timing_out None "latest" []
                  Timeout eq_refl eq_refl)).
Defined.

Lemma http_error_status_502_witness :
  get_block (node_replying {| status_code := 503; body := None |})
    (Some 16) [] =
  ([block_request "0x10"],
   HTTPException 502 (StrOf (RpcError (NetworkOrHttpError (HTTPError 503))))).
Proof.
  refine (http_error_status_502
            (node_replying {| status_code := 503; body := None |})
            (Some 16) "0x10" [] {| status_code := 503; body := None |}
            eq_refl eq_refl _).
  cbn. lia.
Defined.

Lemma undecodable_body_400_witness :
  get_block (node_replying html_reply) None [] =
  ([block_request "latest"], HTTPException 400 (StrOf JSONDecodeError)).
Proof.
  exact (undecodable_body_400 (node_replying html_reply) None "latest" []
           html_reply eq_refl eq_refl eq_refl eq_refl).
Defined.

Lemma non_object_body_500_witness :
  exists e,
    (e = TypeError \/ e = AttributeError) /\
    get_block (node_replying array_reply) None [] =
    ([block_request "latest"], HTTPException 500 (UnexpectedServerError e)).
Proof.
  refine (non_object_body_500 (node_replying array_reply) None "latest" []
            array_reply (JList [JStr "error"]) eq_refl eq_refl eq_refl
            eq_refl _).
  discriminate.
Defined.

Lemma get_block_200_iff_witness :
  snd (get_block (node_replying (block_reply sample_block)) (Some 21000000) [])
  = Return200
      {| block_number := Some 21000000;
         block_hash := JStr "0xabc";
         total_transactions := 3;
         by_sender := [(JStr "A", 2); (JStr "C", 1)];
         by_receiver := [(JStr "B", 2); (JStr "null", 1)] |}.
Proof.
  apply (proj2 (get_block_200_iff (node_replying (block_reply sample_block))
                  (Some 21000000) [] _)).
  exists "0x1406f40", (block_reply sample_block),
    [("jsonrpc", JStr "2.0"); ("id", JInt 1); ("result", sample_block)],
    sample_block.
  repeat split; discriminate.
Defined.

(** ** The failure mapping of the handler *)




Section FailureMapping.

Variable post : list rpc_request -> rpc_request -> post_outcome.



End FailureMapping.


